(** * Meshalto payment SDK (React): the card form, the Stripe form and their requests

    A shallow embedding of the payment components of [sdk/vite-react]:
    [MeshaltoPayment.tsx] (the generic card form: its input handlers, its
    [handleSubmit], the choice of the form to render) and
    [StripePaymentForm.tsx] ([CheckoutForm.handleSubmit]), followed by the
    properties of the specification that concern them.

    Conventions.
    - A JavaScript string is a [string]; one [ascii] stands for one code
      unit, so the model covers code units 0..255.
    - A JavaScript [number] is a binary64 [float] (the kernel's primitive
      floats); [PrimFloat.mul] is the multiplication the engine performs.
    - An asynchronous handler is a function from what it reads (props,
      component state, the outcome of the awaited call) to the list of
      observable events it performs, in order, and the state it leaves.
      The caller's callbacks are taken not to throw.
    - A field the code reads as [any] out of a response body is a
      [JS.value]: what the handlers see of it is whether it is truthy and
      what [String(v)] makes of it. *)

From Stdlib Require Import Bool Arith List Lia ZArith.
From Stdlib Require Import Strings.Ascii Strings.String.
From Stdlib Require Import Floats.PrimFloat Floats.SpecFloat Floats.FloatOps.
From Stdlib Require Import Floats.FloatAxioms.
From Stdlib Require Import Numbers.Cyclic.Int63.Uint63.
Import ListNotations.

Set Warnings "-inexact-float".

Open Scope string_scope.
Open Scope nat_scope.

(** ** JavaScript strings *)

Module JS.

(** [[0-9]] and [\d]. *)
Definition is_digit (c : ascii) : bool :=
  let n := nat_of_ascii c in (48 <=? n) && (n <=? 57).

(** [\s] restricted to code units below 256: TAB, LF, VT, FF, CR, SPACE
    and NBSP. *)
Definition is_space (c : ascii) : bool :=
  let n := nat_of_ascii c in
  ((9 <=? n) && (n <=? 13)) || (n =? 32) || (n =? 160).

Fixpoint filter (p : ascii -> bool) (s : string) : string :=
  match s with
  | EmptyString => EmptyString
  | String c r => if p c then String c (filter p r) else filter p r
  end.

Fixpoint forallb (p : ascii -> bool) (s : string) : bool :=
  match s with
  | EmptyString => true
  | String c r => p c && forallb p r
  end.

(** [s.replace(/\s+/g, '')] and [s.replace(/\s/g, '')]: both delete every
    white-space code unit. *)
Definition remove_spaces (s : string) : string :=
  filter (fun c => negb (is_space c)) s.

(** [s.replace(/[^0-9]/gi, '')]. *)
Definition keep_digits (s : string) : string := filter is_digit s.

(** [s.substring(a, b)] for [a <= b]. *)
Definition substring (a b : nat) (s : string) : string :=
  String.substring a (b - a) s.

(** The longest run of digits at the head of [s], at most [n] long: what
    the greedy [\d{..,n}] consumes at one position. *)
Fixpoint digits_prefix (n : nat) (s : string) : string :=
  match n, s with
  | S n', String c r =>
      if is_digit c then String c (digits_prefix n' r) else EmptyString
  | _, _ => EmptyString
  end.

(** [(s.match(/\d{4,16}/g) && s.match(/\d{4,16}/g)[0]) || '']: the
    left-most position where at least four digits follow, and up to
    sixteen of them; [''] when there is none. *)
Fixpoint first_match_4_16 (s : string) : string :=
  match s with
  | EmptyString => EmptyString
  | String _ r =>
      let m := digits_prefix 16 s in
      if 4 <=? String.length m then m else first_match_4_16 r
  end.

(** [parts.join(sep)]. *)
Definition join (sep : string) (parts : list string) : string :=
  String.concat sep parts.

(** Truthiness of a string value: [''] is falsy. *)
Definition truthy (s : string) : bool :=
  match s with EmptyString => false | _ => true end.

(** [a || b || ... || dflt] over possibly missing string values: the first
    one that is present and not empty. *)
Fixpoint first_truthy (xs : list (option string)) (dflt : string) : string :=
  match xs with
  | [] => dflt
  | Some s :: r => if truthy s then s else first_truthy r dflt
  | None :: r => first_truthy r dflt
  end.

(** A value of type [any]: a string, or a value that is not a string,
    given by its truthiness and by the text [String(v)] returns. So [null]
    is [VOther false "null"], the array [[]] is [VOther true ""], an array
    of one object is [VOther true "[object Object]"]. The conversion is
    taken not to throw. *)
Inductive value : Type :=
| VString (s : string)
| VOther (truthy : bool) (text : string).

Definition truthy_value (v : value) : bool :=
  match v with
  | VString s => truthy s
  | VOther t _ => t
  end.

(** [String(v)], which is also the [message] of [new Error(v)]. *)
Definition ToString (v : value) : string :=
  match v with
  | VString s => s
  | VOther _ text => text
  end.

(** [a || b || ... || dflt] over possibly missing values of any type: the
    first one that is present and truthy, as it is. *)
Fixpoint first_truthy_value (xs : list (option value)) (dflt : value)
    : value :=
  match xs with
  | [] => dflt
  | Some v :: r => if truthy_value v then v else first_truthy_value r dflt
  | None :: r => first_truthy_value r dflt
  end.

(** A string that may hold code units above 255, as the list of its code
    units. *)
Definition units : Type := list N.

(** The upper case of one code unit below 256, by the Unicode case
    mapping: a-z go to A-Z; the micro sign (181) goes to the Greek
    capital mu (924); the sharp s (223) goes to SS; the letters 224-254
    go to 192-222, the division sign (247) left out; y with diaeresis
    (255) goes to 376; any other code unit is left as it is. *)
Definition upper (c : ascii) : units :=
  let n := N_of_ascii c in
  if ((97 <=? n) && (n <=? 122))%N then [(n - 32)%N]
  else if (n =? 181)%N then [924%N]
  else if (n =? 223)%N then [83%N; 83%N]
  else if ((224 <=? n) && (n <=? 254) && negb (n =? 247))%N then [(n - 32)%N]
  else if (n =? 255)%N then [376%N]
  else [n].

(** [s.toUpperCase()]. *)
Fixpoint toUpperCase (s : string) : units :=
  match s with
  | EmptyString => []
  | String c r => (upper c ++ toUpperCase r)%list
  end.

(** A template literal, kept as its pieces: the rendering of a number in
    decimal is not part of the model. *)
Inductive piece : Type :=
| Lit (s : string)
| Str (s : string)
| Num (x : float).

End JS.

(** ** MeshaltoPayment.tsx: the card-entry handlers *)

Module Card.

(** The [for] loop of [formatCardNumber]:
    [for (i = 0, len = match.length; i < len; i += 4)
       parts.push(match.substring(i, i + 4))].
    [fuel] bounds the number of iterations. *)
Fixpoint push_parts (fuel i : nat) (m : string) : list string :=
  match fuel with
  | 0 => []
  | S fuel' =>
      if i <? String.length m
      then JS.substring i (i + 4) m :: push_parts fuel' (i + 4) m
      else []
  end.

Definition formatCardNumber (value : string) : string :=
  let v := JS.keep_digits (JS.remove_spaces value) in
  let m := JS.first_match_4_16 v in
  let parts := push_parts (String.length m) 0 m in
  match parts with
  | [] => value
  | _ => JS.join " " parts
  end.

Definition formatExpiryDate (value : string) : string :=
  let v := JS.keep_digits (JS.remove_spaces value) in
  if 2 <=? String.length v
  then JS.substring 0 2 v ++ "/" ++ JS.substring 2 4 v
  else v.

(** The part of the component state the handlers touch. *)
Record fields : Type := mkFields {
  cardNumber : string;
  expiryDate : string;
  cvv : string;
  cardholderName : string;
  selectedGateway : string
}.

(** [useState('')] four times, and [useState(gateway)]. *)
Definition initial (gateway : string) : fields :=
  mkFields "" "" "" "" gateway.

Definition handleCardNumberChange (value : string) (st : fields) : fields :=
  let formatted := formatCardNumber value in
  if String.length formatted <=? 19
  then mkFields formatted (expiryDate st) (cvv st) (cardholderName st)
         (selectedGateway st)
  else st.

Definition handleExpiryDateChange (value : string) (st : fields) : fields :=
  let formatted := formatExpiryDate value in
  if String.length formatted <=? 5
  then mkFields (cardNumber st) formatted (cvv st) (cardholderName st)
         (selectedGateway st)
  else st.

Definition handleCvvChange (value : string) (st : fields) : fields :=
  let value' := JS.keep_digits value in
  if String.length value' <=? 4
  then mkFields (cardNumber st) (expiryDate st) value' (cardholderName st)
         (selectedGateway st)
  else st.

Definition handleNameChange (value : string) (st : fields) : fields :=
  mkFields (cardNumber st) (expiryDate st) (cvv st) value
    (selectedGateway st).

(** [setSelectedGateway]: the selector's [onChange] and the effect that
    follows the [gateway] prop. *)
Definition setSelectedGateway (g : string) (st : fields) : fields :=
  mkFields (cardNumber st) (expiryDate st) (cvv st) (cardholderName st) g.

(** The change events of the form. *)
Inductive input_event : Type :=
| CardNumberChange (value : string)
| ExpiryDateChange (value : string)
| CvvChange (value : string)
| NameChange (value : string)
| GatewayChange (value : string).

Definition handle (st : fields) (e : input_event) : fields :=
  match e with
  | CardNumberChange v => handleCardNumberChange v st
  | ExpiryDateChange v => handleExpiryDateChange v st
  | CvvChange v => handleCvvChange v st
  | NameChange v => handleNameChange v st
  | GatewayChange g => setSelectedGateway g st
  end.

Definition run (gateway : string) (es : list input_event) : fields :=
  fold_left handle es (initial gateway).

End Card.

(** ** MeshaltoPayment.tsx: [handleSubmit] of the generic card form *)

Module Generic.

(** The props [handleSubmit] reads, after their defaults
    ([currency = 'USD'], [gateway = 'auto']). *)
Record props : Type := mkProps {
  apiUrl : string;
  apiKey : string;
  amount : float;
  currency : string;
  gateway : string
}.

Record customer : Type := mkCustomer {
  email : string;
  name : string
}.

Record payment_token : Type := mkToken {
  token : string;
  brand : string
}.

(** The JSON body handed to [axios.post]. *)
Record body : Type := mkBody {
  b_amount : float;
  b_currency : string;
  b_payment_method : string;
  b_description : list JS.piece;
  b_customer : customer;
  b_payment_token : payment_token
}.

Record request : Type := mkRequest {
  url : string;
  payload : body;
  headers : list (string * string)
}.

(** [response.data] as far as the component reads it: [status] is [None]
    when the field is missing or not a string; [error_message] is [None]
    when the field is missing. *)
Record response_data : Type := mkData {
  transaction_id : string;
  r_gateway : string;
  status : option string;
  error_message : option JS.value
}.

(** What [catch (err)] reads: [err.response?.data], whose fields are of
    any type, and [err.message], the message of an [Error]. *)
Record error_data : Type := mkErrorData {
  detail : option JS.value;
  message : option JS.value;
  error_code : option JS.value
}.

Record js_error : Type := mkError {
  err_response : option error_data;
  err_message : option string
}.

(** [new Error(msg)]: its message is [String(msg)]. *)
Definition Error (msg : JS.value) : js_error :=
  mkError None (Some (JS.ToString msg)).

(** How [await axios.post(..)] ends: the promise resolves with a response
    whose [data] may be falsy ([None]), or rejects (network failure,
    timeout, a status outside 2xx). *)
Inductive axios_outcome : Type :=
| Resolved (data : option response_data)
| Rejected (err : js_error).

(** What the handler does to the outside, in order. The callbacks are the
    caller's [onSuccess] and [onError]; [OnError msg] is a call with an
    [Error] whose message is [msg]. *)
Inductive event : Type :=
| Post (r : request)
| OnSuccess (d : response_data)
| OnError (msg : string).

(** The modal and banner state. [error] and the message and code of
    [errorData] hold what [setError] and [setErrorData] are handed, of
    whatever type. *)
Record ui : Type := mkUi {
  loading : bool;
  error : option JS.value;
  showSuccessModal : bool;
  showErrorModal : bool;
  showLoadingModal : bool;
  paymentData : option response_data;
  errorData : option (JS.value * option JS.value)
}.

Definition initial_ui : ui :=
  mkUi false None false false false None None.

Definition setLoading (b : bool) (u : ui) : ui :=
  mkUi b (error u) (showSuccessModal u) (showErrorModal u)
    (showLoadingModal u) (paymentData u) (errorData u).
Definition setError (e : option JS.value) (u : ui) : ui :=
  mkUi (loading u) e (showSuccessModal u) (showErrorModal u)
    (showLoadingModal u) (paymentData u) (errorData u).
Definition setShowSuccessModal (b : bool) (u : ui) : ui :=
  mkUi (loading u) (error u) b (showErrorModal u)
    (showLoadingModal u) (paymentData u) (errorData u).
Definition setShowErrorModal (b : bool) (u : ui) : ui :=
  mkUi (loading u) (error u) (showSuccessModal u) b
    (showLoadingModal u) (paymentData u) (errorData u).
Definition setShowLoadingModal (b : bool) (u : ui) : ui :=
  mkUi (loading u) (error u) (showSuccessModal u) (showErrorModal u)
    b (paymentData u) (errorData u).
Definition setPaymentData (d : option response_data) (u : ui) : ui :=
  mkUi (loading u) (error u) (showSuccessModal u) (showErrorModal u)
    (showLoadingModal u) d (errorData u).
Definition setErrorData (d : option (JS.value * option JS.value)) (u : ui)
    : ui :=
  mkUi (loading u) (error u) (showSuccessModal u) (showErrorModal u)
    (showLoadingModal u) (paymentData u) d.

(** [!cardNumber || !expiryDate || !cvv || !cardholderName] negated. *)
Definition all_filled (st : Card.fields) : bool :=
  JS.truthy (Card.cardNumber st) && JS.truthy (Card.expiryDate st)
  && JS.truthy (Card.cvv st) && JS.truthy (Card.cardholderName st).

(** [selectedGateway === 'auto' ? 'stripe' : selectedGateway]. *)
Definition gatewayEndpoint (selectedGateway : string) : string :=
  if String.eqb selectedGateway "auto" then "stripe" else selectedGateway.

Definition build_request (p : props) (st : Card.fields) : request :=
  mkRequest
    (apiUrl p ++ "/process/" ++ gatewayEndpoint (Card.selectedGateway st))
    (mkBody
       (amount p)
       (currency p)
       "card"
       [JS.Lit "Payment of "; JS.Str (currency p); JS.Lit " ";
        JS.Num (amount p)]
       (mkCustomer "customer@example.com" (Card.cardholderName st))
       (mkToken
          (JS.substring 0 16 (JS.remove_spaces (Card.cardNumber st)))
          "visa"))
    [("Content-Type", "application/json"); ("x-api-key", apiKey p)].

(** [response.data && response.data.status === 'completed']. *)
Definition completed (data : option response_data) : bool :=
  match data with
  | Some d =>
      match status d with
      | Some s => String.eqb s "completed"
      | None => false
      end
  | None => false
  end.

(** The [try] block: the events performed, the state reached, and the
    error thrown, if any. *)
Definition try_block (p : props) (st : Card.fields)
    (net : request -> axios_outcome) (u : ui)
    : list event * ui * option js_error :=
  if negb (all_filled st)
  then ([], u, Some (Error (JS.VString "Please fill in all fields")))
  else
    let req := build_request p st in
    match net req with
    | Rejected err => ([Post req], u, Some err)
    | Resolved data =>
        let u := setShowLoadingModal false u in
        match data with
        | Some d =>
            if completed data
            then ([Post req; OnSuccess d],
                  setShowSuccessModal true (setPaymentData (Some d) u),
                  None)
            else ([Post req], u,
                  Some (Error (JS.first_truthy_value [error_message d]
                                 (JS.VString "Payment failed"))))
        | None => ([Post req], u, Some (Error (JS.VString "Payment failed")))
        end
    end.

(** [err.response?.data?.detail || err.response?.data?.message ||
    err.message || 'Payment failed']. *)
Definition errorMessage (err : js_error) : JS.value :=
  match err_response err with
  | Some r =>
      JS.first_truthy_value
        [detail r; message r; option_map JS.VString (err_message err)]
        (JS.VString "Payment failed")
  | None =>
      JS.first_truthy_value [option_map JS.VString (err_message err)]
        (JS.VString "Payment failed")
  end.

Definition errorCode (err : js_error) : option JS.value :=
  match err_response err with
  | Some r => error_code r
  | None => None
  end.

(** The [catch] block: the state is handed [errorMessage] as it is, and
    [onError] an [Error] made of it. *)
Definition catch_block (err : js_error) (u : ui) : list event * ui :=
  let msg := errorMessage err in
  ([OnError (JS.ToString msg)],
   setShowErrorModal true
     (setErrorData (Some (msg, errorCode err))
        (setError (Some msg) (setShowLoadingModal false u)))).

Definition handleSubmit (p : props) (st : Card.fields)
    (net : request -> axios_outcome) (u : ui) : list event * ui :=
  let u := setError None (setShowLoadingModal true (setLoading true u)) in
  let '(evs, u, thrown) := try_block p st net u in
  let '(evs, u) :=
    match thrown with
    | None => (evs, u)
    | Some err => let '(evs', u') := catch_block err u in ((evs ++ evs')%list, u')
    end in
  (evs, setLoading false u).

(** [n] submissions in a row of the same form; [net k] answers the
    [k]-th of them. *)
Fixpoint submit_times (n : nat) (p : props) (st : Card.fields)
    (net : nat -> request -> axios_outcome) (k : nat) (u : ui)
    : list event * ui :=
  match n with
  | 0 => ([], u)
  | S n' =>
      let '(evs, u') := handleSubmit p st (net k) u in
      let '(evs', u'') := submit_times n' p st net (S k) u' in
      ((evs ++ evs')%list, u'')
  end.

Definition is_post (e : event) : bool :=
  match e with Post _ => true | _ => false end.

Definition posts (evs : list event) : list request :=
  flat_map (fun e => match e with Post r => [r] | _ => [] end) evs.

Definition successes (evs : list event) : list response_data :=
  flat_map (fun e => match e with OnSuccess d => [d] | _ => [] end) evs.

Definition failures (evs : list event) : list string :=
  flat_map (fun e => match e with OnError m => [m] | _ => [] end) evs.


(** The forms the component renders for a selected gateway. *)
Inductive form : Type :=
| StripePaymentForm
| SquarePaymentForm
| PayPalPaymentForm
| CardForm.

Definition rendered (selectedGateway : string) : list form :=
  ((if String.eqb selectedGateway "stripe" then [StripePaymentForm] else [])
   ++ (if String.eqb selectedGateway "square" then [SquarePaymentForm] else [])
   ++ (if String.eqb selectedGateway "paypal" then [PayPalPaymentForm] else [])
   ++ (if String.eqb selectedGateway "auto"
          || negb (existsb (String.eqb selectedGateway)
                     ["stripe"; "square"; "paypal"])
       then [CardForm] else []))%list.

(** The form that belongs to each of the three gateways. *)
Definition form_of (g : string) : list form :=
  if String.eqb g "stripe" then [StripePaymentForm]
  else if String.eqb g "square" then [SquarePaymentForm]
  else if String.eqb g "paypal" then [PayPalPaymentForm]
  else [].


End Generic.

(** ** JavaScript numbers *)

Module Num.

(** The number whose value is the integer [n], for [|n| < 2^63]. *)
Definition of_Z (n : Z) : float :=
  if (n <? 0)%Z
  then PrimFloat.opp (PrimFloat.of_uint63 (Uint63.of_Z (- n)))
  else PrimFloat.of_uint63 (Uint63.of_Z n).

(** [Math.round(x)]: NaN, the infinities, the zeros and the integers are
    returned as they are; any other [x] goes to the integer nearest to
    it, a tie to the one above, with the sign of [x] kept on a zero
    result. A finite [x] is [(-1)^s * m * 2^e]; when [e < 0] the result
    is [floor (x + 1/2)], that is [(±m + 2^(-e-1)) / 2^(-e)] rounded
    down, computed exactly over the integers. *)
Definition Math_round (x : float) : float :=
  match Prim2SF x with
  | S754_finite s m e =>
      if (0 <=? e)%Z then x
      else
        let sm := if s then Z.neg m else Z.pos m in
        let n := Z.shiftr (sm + Z.shiftl 1 (- e - 1)) (- e) in
        if (n =? 0)%Z
        then (if s then PrimFloat.opp PrimFloat.zero else PrimFloat.zero)
        else of_Z n
  | _ => x
  end.

(** The number a decimal literal with two places denotes: [c / 100]
    rounded to binary64, for [c] hundredths. *)
Definition of_cents (c : Z) : float :=
  PrimFloat.div (of_Z c) (of_Z 100).

End Num.

(** ** StripePaymentForm.tsx: [CheckoutForm.handleSubmit] *)

Module Stripe.

(** Props after their defaults ([amount = 99.99], [currency = 'USD']). *)
Record props : Type := mkProps {
  amount : float;
  currency : string
}.

Record form_state : Type := mkForm {
  name : string;
  email : string;
  phone : string;
  address : string;
  city : string;
  state : string;
  zipCode : string;
  country : string;
  isProcessing : bool
}.

(** [import.meta.env], each variable as the text the template literal or
    the header receives. *)
Record env : Type := mkEnv {
  VITE_MESHALTO_API_URL : string;
  VITE_MESHALTO_API_URL_STRIPE_PATH : string;
  VITE_MESHALTO_API_KEY : option string
}.

Record postal : Type := mkPostal {
  line1 : string;
  a_city : string;
  a_state : string;
  postal_code : string;
  a_country : string
}.

(** [billing_details] of [createPaymentMethod] and [customer] of the
    request body have the same fields. *)
Record party : Type := mkParty {
  p_email : string;
  p_name : string;
  p_phone : option string;
  p_address : postal
}.

Record payment_token : Type := mkToken {
  token : string;
  token_type : string
}.

Record body : Type := mkBody {
  b_amount : float;
  b_currency : JS.units;
  b_payment_method : string;
  b_customer : party;
  b_payment_token : payment_token
}.

Record request : Type := mkRequest {
  url : string;
  method : string;
  headers : list (string * string);
  payload : body
}.

(** The parsed JSON of the response, as far as the form or its caller
    reads it. *)
Record result : Type := mkResult {
  r_error : option JS.value;
  r_message : option JS.value;
  r_status : option string
}.

(** How [await stripe.createPaymentMethod(..)] ends. *)
Inductive pm_outcome : Type :=
| Created (id : string)
| Refused (message : option string)
| PmThrown (message : option string).

(** How [await fetch(..)] followed by [await response.json()] ends. *)
Inductive fetch_outcome : Type :=
| Responded (ok : bool) (r : result)
| FetchThrown (message : option string).

Inductive event : Type :=
| CreatePaymentMethod (billing_details : party)
| Fetch (r : request)
| OnSuccess (r : result)
| OnError (msg : string).

(** [phone || undefined]. *)
Definition or_undefined (s : string) : option string :=
  if JS.truthy s then Some s else None.

Definition party_of (st : form_state) : party :=
  mkParty (email st) (name st) (or_undefined (phone st))
    (mkPostal (address st) (city st) (state st) (zipCode st) (country st)).

(** [amount * 100]. *)
Definition scaled (amount : float) : float :=
  PrimFloat.mul amount (Num.of_Z 100).

(** [Math.round(amount * 100)]. *)
Definition amountInCents (amount : float) : float :=
  Num.Math_round (scaled amount).

(** [amountInCents] gives [c] for each of the [fuel] amounts
    [c / 100], [(c + 1) / 100], ... *)
Fixpoint cents_exact_from (fuel : nat) (c : Z) : bool :=
  match fuel with
  | 0 => true
  | S fuel' =>
      PrimFloat.Leibniz.eqb (amountInCents (Num.of_cents c)) (Num.of_Z c)
      && cents_exact_from fuel' (c + 1)
  end.

Definition build_request (p : props) (e : env) (st : form_state)
    (paymentMethod_id : string) : request :=
  mkRequest
    (VITE_MESHALTO_API_URL e ++ VITE_MESHALTO_API_URL_STRIPE_PATH e)
    "POST"
    [("Content-Type", "application/json");
     ("X-API-Key",
      match VITE_MESHALTO_API_KEY e with Some k => k | None => "" end)]
    (mkBody
       (amountInCents (amount p))
       (JS.toUpperCase (currency p))
       "card"
       (party_of st)
       (mkToken paymentMethod_id "card")).

(** [handleSubmit]. [ready] is [stripe && elements]; [cardElement] tells
    whether [elements.getElement(CardElement)] is there. The result is the
    events performed and the final [isProcessing]. *)
Definition handleSubmit (ready cardElement : bool) (p : props) (e : env)
    (st : form_state) (pm : pm_outcome) (net : request -> fetch_outcome)
    : list event * bool :=
  if negb ready || isProcessing st then ([], isProcessing st)
  else if negb cardElement then ([], false)
  else
    let create := CreatePaymentMethod (party_of st) in
    match pm with
    | PmThrown m =>
        ([create; OnError (JS.first_truthy [m] "Network error occurred")],
         false)
    | Refused m =>
        ([create;
          OnError (JS.first_truthy [m] "Payment method creation failed")],
         false)
    | Created id =>
        let req := build_request p e st id in
        match net req with
        | FetchThrown m =>
            ([create; Fetch req;
              OnError (JS.first_truthy [m] "Network error occurred")],
             false)
        | Responded ok r =>
            if ok
            then ([create; Fetch req; OnSuccess r], false)
            else ([create; Fetch req;
                   OnError
                     (JS.ToString
                        (JS.first_truthy_value [r_error r; r_message r]
                           (JS.VString "Payment processing failed")))],
                  false)
        end
    end.

Definition successes (evs : list event) : list result :=
  flat_map (fun e => match e with OnSuccess r => [r] | _ => [] end) evs.

Definition fetches (evs : list event) : list request :=
  flat_map (fun e => match e with Fetch r => [r] | _ => [] end) evs.

End Stripe.

(** ** Fee schedule *)

Module Fees.

(** Modelled from the spec: the ProviderProfile record and the Fee
    Estimator ([fee_optimizer.py] of the server is not among the
    sources). Amounts are in minor units, the percentage in hundredths
    of a percent. *)
Record ProviderProfile : Type := mkProfile {
  id : string;
  percentage : Z;
  fixed : Z;
  supportedCurrencies : list string;
  enabled : bool
}.

(** [num / den] rounded to the nearest integer, a tie to the even one. *)
Definition round_half_even (num den : Z) : Z :=
  let q := (num / den)%Z in
  let r := (num mod den)%Z in
  if (2 * r <? den)%Z then q
  else if (den <? 2 * r)%Z then (q + 1)%Z
  else if Z.even q then q else (q + 1)%Z.

(** Modelled from the spec: [estimate] is [amount * percentage + fixed]
    rounded half-even to the currency precision, and no number at all
    for a currency the provider does not support. *)
Definition estimate (amount : Z) (currency : string) (p : ProviderProfile)
    : option Z :=
  if existsb (String.eqb currency) (supportedCurrencies p)
  then Some (round_half_even (amount * percentage p) 10000 + fixed p)%Z
  else None.

(** The fee table of the repository's README: Stripe 2.9% + $0.30,
    Square 2.6% + $0.10, PayPal 2.89% + $0.49. *)
Definition stripe : ProviderProfile := mkProfile "stripe" 290 30 ["USD"] true.
Definition square : ProviderProfile := mkProfile "square" 260 10 ["USD"] true.
Definition paypal : ProviderProfile := mkProfile "paypal" 289 49 ["USD"] true.

(** Modelled from the spec: the Provider Selector keeps the enabled
    profiles that support the currency and orders them by estimated fee,
    ascending; equal fees keep the order of the priority list. *)
Fixpoint insert (x : Z * string) (l : list (Z * string))
    : list (Z * string) :=
  match l with
  | [] => [x]
  | y :: r => if (fst y <=? fst x)%Z then y :: insert x r else x :: l
  end.

Definition rank (amount : Z) (currency : string)
    (priority : list ProviderProfile) : list string :=
  let candidates :=
    flat_map (fun p =>
                if enabled p
                then match estimate amount currency p with
                     | Some fee => [(fee, id p)]
                     | None => []
                     end
                else []) priority in
  map snd (fold_left (fun acc x => insert x acc) candidates []).

End Fees.

(** ** Shapes of the card-entry fields *)

Module Shape.

(** [blocks n s]: [s] continues a block that already has [n] digits, and
    is made of blocks of one to four digits with one space between two
    blocks; no other character, no space first or last. *)
Fixpoint blocks (n : nat) (s : string) : bool :=
  match s with
  | EmptyString => 0 <? n
  | String c r =>
      if JS.is_digit c then (n <? 4) && blocks (S n) r
      else if Ascii.eqb c " " then (0 <? n) && blocks 0 r
      else false
  end.

(** Only digits, in blocks of at most four, single spaces between. *)
Definition grouped (s : string) : bool :=
  match s with
  | EmptyString => true
  | _ => blocks 0 s
  end.

Definition count_digits (s : string) : nat :=
  String.length (JS.keep_digits s).

(** [MM/YY]: two digits, a slash, two digits. *)
Definition mmyy (s : string) : bool :=
  match s with
  | String m1 (String m2 (String sl (String y1 (String y2 EmptyString)))) =>
      JS.is_digit m1 && JS.is_digit m2 && Ascii.eqb sl "/"
      && JS.is_digit y1 && JS.is_digit y2
  | _ => false
  end.

(** Two digits, a slash, then at most two digits. *)
Definition mm_slash (s : string) : bool :=
  match s with
  | String m1 (String m2 (String sl r)) =>
      JS.is_digit m1 && JS.is_digit m2 && Ascii.eqb sl "/"
      && JS.forallb JS.is_digit r && (String.length r <=? 2)
  | _ => false
  end.

(** The invariant as the specification words it. *)
Definition card_number_claimed (st : Card.fields) : bool :=
  grouped (Card.cardNumber st) && (String.length (Card.cardNumber st) <=? 19).

Definition cvv_claimed (st : Card.fields) : bool :=
  JS.forallb JS.is_digit (Card.cvv st) && (String.length (Card.cvv st) <=? 4).

Definition expiry_claimed (st : Card.fields) : bool :=
  (String.length (Card.expiryDate st) <=? 5)
  && (if 2 <=? count_digits (Card.expiryDate st)
      then mmyy (Card.expiryDate st) else true).

(** The invariant the handlers keep: the card number is grouped once it
    holds four digits, and a started expiry date is [MM/] followed by at
    most two digits. *)
Definition card_number_kept (st : Card.fields) : bool :=
  (String.length (Card.cardNumber st) <=? 19)
  && (if 4 <=? count_digits (Card.cardNumber st)
      then grouped (Card.cardNumber st) else true).

Definition expiry_kept (st : Card.fields) : bool :=
  (String.length (Card.expiryDate st) <=? 5)
  && (if 2 <=? count_digits (Card.expiryDate st)
      then mm_slash (Card.expiryDate st)
      else JS.forallb JS.is_digit (Card.expiryDate st)).

Definition claimed (st : Card.fields) : bool :=
  card_number_claimed st && cvv_claimed st && expiry_claimed st.

Definition kept (st : Card.fields) : bool :=
  card_number_kept st && cvv_claimed st && expiry_kept st.

(** [s] cut in pieces of four, the last one shorter when the length is
    not a multiple of four. *)
Fixpoint chunk4 (s : string) : list string :=
  match s with
  | String a (String b (String c (String d r))) =>
      String a (String b (String c (String d EmptyString))) :: chunk4 r
  | EmptyString => []
  | _ => [s]
  end.

Fixpoint drop (n : nat) (s : string) : string :=
  match n, s with
  | 0, _ => s
  | S n', String _ r => drop n' r
  | S _, EmptyString => EmptyString
  end.

End Shape.

(** ** The demo page *)

Module Demo.

(** [App.tsx]: the component as the demo page mounts it. *)
Definition props : Generic.props :=
  Generic.mkProps "http://localhost:8002" "test_key" 4.39%float "USD" "auto".

(** The card form after the test card of the end-to-end tests has been
    typed in. *)
Definition filled : Card.fields :=
  Card.run "auto"
    [Card.NameChange "John Doe";
     Card.CardNumberChange "4242424242424242";
     Card.ExpiryDateChange "1234";
     Card.CvvChange "123"].

Definition request : Generic.request := Generic.build_request props filled.

(** The demo page with a negative amount. *)
Definition negative_amount : Generic.props :=
  Generic.mkProps "http://localhost:8002" "test_key" (-5)%float "USD" "auto".

(** The card form with the letters abc in the card number, and with 12a. *)
Definition lettered : Card.fields :=
  Card.run "auto"
    [Card.NameChange "John Doe";
     Card.CardNumberChange "abc";
     Card.ExpiryDateChange "1234";
     Card.CvvChange "123"].

Definition short_number : Card.fields :=
  Card.run "auto"
    [Card.NameChange "John Doe";
     Card.CardNumberChange "12a";
     Card.ExpiryDateChange "1234";
     Card.CvvChange "123"].


(** A server that completes every payment, numbering its transactions. *)
Definition completing (k : nat) (_ : Generic.request) : Generic.axios_outcome :=
  Generic.Resolved
    (Some (Generic.mkData
             (if k =? 0 then "txn_1" else "txn_2")
             "stripe" (Some "completed") None)).

(** A gateway that does not answer in time. *)
Definition timing_out (_ : Generic.request) : Generic.axios_outcome :=
  Generic.Rejected
    (Generic.mkError None (Some "timeout of 10000ms exceeded")).

(** The Stripe form under the same amount, with its billing fields
    filled. *)
Definition stripe_props : Stripe.props := Stripe.mkProps 4.39%float "USD".

Definition stripe_form : Stripe.form_state :=
  Stripe.mkForm "John Doe" "test@example.com" "1234567890" "123 Test St"
    "Test City" "CA" "12345" "US" false.

(** A 200 response whose body reports a failed payment. *)
Definition failed_result : Stripe.result :=
  Stripe.mkResult None None (Some "failed").

End Demo.


(** ** MeshaltoPayment.tsx: typing into the card inputs *)

Module Typing.

(** A key typed at the end of a controlled input: [e.target.value] is the
    value on display followed by the key. *)
Definition type_card_key (c : ascii) (st : Card.fields) : Card.fields :=
  Card.handleCardNumberChange (Card.cardNumber st ++ String c "") st.

Fixpoint type_card_keys (keys : string) (st : Card.fields) : Card.fields :=
  match keys with
  | EmptyString => st
  | String c r => type_card_keys r (type_card_key c st)
  end.

Definition type_expiry_key (c : ascii) (st : Card.fields) : Card.fields :=
  Card.handleExpiryDateChange (Card.expiryDate st ++ String c "") st.

Fixpoint type_expiry_keys (keys : string) (st : Card.fields) : Card.fields :=
  match keys with
  | EmptyString => st
  | String c r => type_expiry_keys r (type_expiry_key c st)
  end.

(** The value without its last character: what Backspace at the end of the
    input leaves. *)
Fixpoint chop (s : string) : string :=
  match s with
  | EmptyString => EmptyString
  | String _ EmptyString => EmptyString
  | String c r => String c (chop r)
  end.

Definition backspace_expiry (st : Card.fields) : Card.fields :=
  Card.handleExpiryDateChange (chop (Card.expiryDate st)) st.

End Typing.

(** ** MeshaltoPayment.tsx: the modal handlers *)

Module Payment.


(** [handleRetry]. *)
Definition handleRetry (u : Generic.ui) : Generic.ui :=
  Generic.setErrorData None
    (Generic.setError None (Generic.setShowErrorModal false u)).

(** [handleSuccessClose]. *)
Definition handleSuccessClose (u : Generic.ui) : Generic.ui :=
  Generic.setPaymentData None (Generic.setShowSuccessModal false u).

(** [onClose] of the error modal: [() => setShowErrorModal(false)]. *)
Definition closeErrorModal (u : Generic.ui) : Generic.ui :=
  Generic.setShowErrorModal false u.

End Payment.

(** ** Modal.tsx and the modals built on it *)

Module Modal.

(** The props that decide how the modal closes, after their defaults. *)
Record props : Type := mkProps {
  isOpen : bool;
  closeOnOverlayClick : bool;
  closeOnEscape : bool;
  showCloseButton : bool
}.

(** What the user can do to an open page: press a key, click the overlay
    outside the container, click inside the container, click the close
    button. *)
Inductive input : Type :=
| KeyDown (key : string)
| ClickOverlay
| ClickContainer
| ClickCloseButton.

(** The number of [onClose] calls an input causes. A closed modal renders
    nothing and listens to nothing; the container stops the propagation of
    the clicks inside it, those on the close button included; the button
    exists only under [showCloseButton]. *)
Definition onClose_calls (p : props) (i : input) : nat :=
  if negb (isOpen p) then 0
  else
    match i with
    | KeyDown key =>
        if closeOnEscape p && String.eqb key "Escape" then 1 else 0
    | ClickOverlay => if closeOnOverlayClick p then 1 else 0
    | ClickContainer => 0
    | ClickCloseButton => if showCloseButton p then 1 else 0
    end.

(** [LoadingModal]: [showCloseButton], [closeOnOverlayClick] and
    [closeOnEscape] all false. *)
Definition LoadingModal (isOpen : bool) : props :=
  mkProps isOpen false false false.

End Modal.

(** ** StripePaymentForm.tsx: reading the events *)

Module StripeLog.

Definition errors (evs : list Stripe.event) : list string :=
  flat_map (fun e => match e with Stripe.OnError m => [m] | _ => [] end) evs.

(** The handler goes past its two early returns. *)
Definition proceeds (ready cardElement : bool) (st : Stripe.form_state)
    : bool :=
  ready && negb (Stripe.isProcessing st) && cardElement.

End StripeLog.

(** * Facts *)

(** ** Characters and filters *)

Lemma digit_not_space (c : ascii) :
  JS.is_digit c = true -> JS.is_space c = false.
Proof.
  unfold JS.is_digit, JS.is_space. intros H.
  apply andb_true_iff in H. destruct H as [H1 H2].
  apply Nat.leb_le in H1. apply Nat.leb_le in H2.
  apply orb_false_iff; split; [apply orb_false_iff; split|].
  - apply andb_false_iff. right. apply Nat.leb_gt. lia.
  - apply Nat.eqb_neq. lia.
  - apply Nat.eqb_neq. lia.
Qed.

Lemma digit_not_blank (c : ascii) :
  JS.is_digit c = true -> Ascii.eqb c " " = false.
Proof.
  intros H.
  destruct (Ascii.eqb_spec c " ") as [->|]; [discriminate H|reflexivity].
Qed.

Section Filter.

Variable p : ascii -> bool.

Lemma forallb_cons (c : ascii) (r : string) :
  JS.forallb p (String c r) = true -> p c = true /\ JS.forallb p r = true.
Proof. simpl. intros H. now apply andb_true_iff in H. Qed.

Lemma forallb_filter (s : string) : JS.forallb p (JS.filter p s) = true.
Proof.
  induction s as [|c r IH]; simpl; [reflexivity|].
  destruct (p c) eqn:E; simpl; [rewrite E|]; assumption.
Qed.

Lemma forallb_substring0 (n : nat) (s : string) :
  JS.forallb p s = true -> JS.forallb p (String.substring 0 n s) = true.
Proof.
  revert s. induction n as [|n IH]; intros [|c r]; simpl; try reflexivity.
  intros H. apply andb_true_iff in H. destruct H as [-> H]. now apply IH.
Qed.

End Filter.

Lemma keep_digits_remove_spaces (s : string) :
  JS.keep_digits (JS.remove_spaces s) = JS.keep_digits s.
Proof.
  unfold JS.keep_digits, JS.remove_spaces.
  induction s as [|c r IH]; simpl; [reflexivity|].
  destruct (JS.is_digit c) eqn:D.
  - rewrite (digit_not_space c D). simpl. now rewrite D, IH.
  - destruct (JS.is_space c); simpl; [|rewrite D]; exact IH.
Qed.

(** ** Substrings *)

Lemma length_zero (s : string) : String.length s = 0 -> s = "".
Proof. destruct s; [reflexivity|discriminate]. Qed.

Lemma length_substring0 (n : nat) (s : string) :
  String.length (String.substring 0 n s) = Nat.min n (String.length s).
Proof.
  revert s. induction n as [|n IH]; intros [|c r]; simpl; try reflexivity.
  now rewrite IH.
Qed.

Lemma substring0_idem (n : nat) (s : string) :
  String.substring 0 n (String.substring 0 n s) = String.substring 0 n s.
Proof.
  revert s. induction n as [|n IH]; intros [|c r]; simpl; try reflexivity.
  now rewrite IH.
Qed.

Lemma substring0_nonempty (n : nat) (s : string) :
  0 < n -> s <> "" -> String.substring 0 n s <> "".
Proof. destruct n, s; simpl; intros; try lia; congruence. Qed.

Lemma substring_drop (i k : nat) (m : string) :
  String.substring i k m = String.substring 0 k (Shape.drop i m).
Proof.
  revert m. induction i as [|i IH]; intros m; [reflexivity|].
  destruct m as [|c r]; simpl; [destruct k; reflexivity|apply IH].
Qed.

Lemma drop_add (i j : nat) (m : string) :
  Shape.drop (i + j) m = Shape.drop j (Shape.drop i m).
Proof.
  revert m. induction i as [|i IH]; intros m; [reflexivity|].
  destruct m as [|c r]; simpl; [destruct j; reflexivity|apply IH].
Qed.

Lemma length_drop (i : nat) (m : string) :
  String.length (Shape.drop i m) = String.length m - i.
Proof.
  revert m. induction i as [|i IH]; intros m; simpl; [lia|].
  destruct m as [|c r]; simpl; [reflexivity|apply IH].
Qed.

(** ** The regular expression [\d{4,16}] *)

Lemma digits_prefix_digits (n : nat) (s : string) :
  JS.forallb JS.is_digit (JS.digits_prefix n s) = true.
Proof.
  revert s. induction n as [|n IH]; intros [|c r]; simpl; try reflexivity.
  destruct (JS.is_digit c) eqn:E; simpl; [rewrite E; apply IH|reflexivity].
Qed.

Lemma digits_prefix_length (n : nat) (s : string) :
  String.length (JS.digits_prefix n s) <= n.
Proof.
  revert s. induction n as [|n IH]; intros [|c r]; simpl; try lia.
  destruct (JS.is_digit c); simpl; [specialize (IH r)|]; lia.
Qed.

Lemma digits_prefix_all (n : nat) (s : string) :
  JS.forallb JS.is_digit s = true ->
  JS.digits_prefix n s = String.substring 0 n s.
Proof.
  revert s. induction n as [|n IH]; intros [|c r]; simpl; try reflexivity.
  intros H. apply andb_true_iff in H. destruct H as [-> H]. now rewrite IH.
Qed.

(** Whatever the string, a match has four to sixteen digits. *)
Lemma first_match_shape (s : string) :
  JS.first_match_4_16 s = ""
  \/ (4 <= String.length (JS.first_match_4_16 s) <= 16
      /\ JS.forallb JS.is_digit (JS.first_match_4_16 s) = true).
Proof.
  induction s as [|c r IH]; [left; reflexivity|].
  unfold JS.first_match_4_16; fold JS.first_match_4_16. cbv zeta.
  destruct (4 <=? String.length (JS.digits_prefix 16 (String c r))) eqn:E.
  - right. apply Nat.leb_le in E.
    split; [split; [exact E|apply digits_prefix_length]
           |apply digits_prefix_digits].
  - exact IH.
Qed.

(** On a string of digits the match is its first sixteen characters, when
    there are four at least. *)
Lemma first_match_all (v : string) :
  JS.forallb JS.is_digit v = true ->
  JS.first_match_4_16 v
  = if 4 <=? String.length v then String.substring 0 16 v else "".
Proof.
  induction v as [|c r IH]; intros H; [reflexivity|].
  unfold JS.first_match_4_16; fold JS.first_match_4_16. cbv zeta.
  rewrite (digits_prefix_all 16 _ H), length_substring0.
  destruct (4 <=? String.length (String c r)) eqn:E.
  - apply Nat.leb_le in E.
    replace (4 <=? Nat.min 16 (String.length (String c r))) with true;
      [reflexivity|].
    symmetry. apply Nat.leb_le. lia.
  - apply Nat.leb_gt in E.
    replace (4 <=? Nat.min 16 (String.length (String c r))) with false
      by (symmetry; apply Nat.leb_gt; lia).
    simpl in H. apply andb_true_iff in H. destruct H as [_ H].
    rewrite (IH H).
    replace (4 <=? String.length r) with false; [reflexivity|].
    symmetry. apply Nat.leb_gt. simpl in E. lia.
Qed.

(** ** The loop of [formatCardNumber] *)

Lemma chunk4_four (a b c d : ascii) (r : string) :
  Shape.chunk4 (String a (String b (String c (String d r))))
  = String a (String b (String c (String d ""))) :: Shape.chunk4 r.
Proof. reflexivity. Qed.

Lemma chunk4_step (s : string) :
  s <> "" ->
  Shape.chunk4 s = String.substring 0 4 s :: Shape.chunk4 (Shape.drop 4 s).
Proof.
  intros H.
  destruct s as [|a [|b [|c [|d r]]]]; try reflexivity.
  - now elim H.
  - destruct r; reflexivity.
Qed.

Lemma chunk4_nil (s : string) : Shape.chunk4 s = [] -> s = "".
Proof.
  destruct s as [|a [|b [|c [|d r]]]]; simpl; intros H;
    try discriminate; reflexivity.
Qed.

Lemma chunk4_cons (a b c d e : ascii) (r : string) :
  exists x l,
    Shape.chunk4 (String e r) = x :: l /\
    Shape.chunk4 (String a (String b (String c (String d (String e r)))))
    = String a (String b (String c (String d ""))) :: x :: l.
Proof.
  destruct (Shape.chunk4 (String e r)) as [|x l] eqn:E.
  - apply chunk4_nil in E. discriminate E.
  - exists x, l. split; [reflexivity|]. now rewrite chunk4_four, E.
Qed.

(** With enough fuel the loop cuts what is left of [m] from [i] on. *)
Lemma push_parts_chunk4 (fuel i : nat) (m : string) :
  String.length (Shape.drop i m) <= fuel ->
  Card.push_parts fuel i m = Shape.chunk4 (Shape.drop i m).
Proof.
  revert i. induction fuel as [|fuel IH]; intros i H.
  - rewrite (length_zero (Shape.drop i m)) by lia. reflexivity.
  - simpl. rewrite length_drop in H.
    destruct (i <? String.length m) eqn:E.
    + apply Nat.ltb_lt in E.
      rewrite chunk4_step.
      * unfold JS.substring. replace (i + 4 - i) with 4 by lia.
        rewrite substring_drop, <- drop_add. f_equal.
        apply IH. rewrite length_drop. lia.
      * intros Z. apply (f_equal String.length) in Z.
        rewrite length_drop in Z. simpl in Z. lia.
    + apply Nat.ltb_ge in E.
      rewrite (length_zero (Shape.drop i m)); [reflexivity|].
      rewrite length_drop. lia.
Qed.

Lemma parts_chunk4 (m : string) :
  Card.push_parts (String.length m) 0 m = Shape.chunk4 m.
Proof. apply (push_parts_chunk4 (String.length m) 0 m). simpl. lia. Qed.

(** Induction over a string four characters at a time. *)
Lemma string_ind4 (P : string -> Prop) :
  P "" ->
  (forall a, P (String a "")) ->
  (forall a b, P (String a (String b ""))) ->
  (forall a b c, P (String a (String b (String c "")))) ->
  (forall a b c d r, P r -> P (String a (String b (String c (String d r))))) ->
  forall s, P s.
Proof.
  intros H0 H1 H2 H3 H4.
  fix IH 1. intros s.
  destruct s as [|a [|b [|c [|d r]]]];
    [apply H0|apply H1|apply H2|apply H3|apply H4, IH].
Qed.

Ltac split_digits :=
  repeat match goal with
         | H : JS.forallb _ (String _ _) = true |- _ => simpl in H
         | H : (_ && _)%bool = true |- _ =>
             apply andb_true_iff in H; destruct H
         end.

Ltac use_digits :=
  split_digits;
  repeat match goal with
         | H : JS.is_digit ?c = true |- _ =>
             try rewrite (digit_not_space c H);
             try rewrite (digit_not_blank c H);
             rewrite ?H; clear H
         end.

Ltac four_digits D Da Db Dc Dd :=
  apply forallb_cons in D as [Da D]; apply forallb_cons in D as [Db D];
  apply forallb_cons in D as [Dc D]; apply forallb_cons in D as [Dd D].

Lemma join_cons2 (sep x y : string) (l : list string) :
  JS.join sep (x :: y :: l) = x ++ sep ++ JS.join sep (y :: l).
Proof. reflexivity. Qed.

Lemma join_chunk4_blocks (m : string) :
  JS.forallb JS.is_digit m = true -> m <> "" ->
  Shape.blocks 0 (JS.join " " (Shape.chunk4 m)) = true.
Proof.
  induction m as [|a|a b|a b c|a b c d r IH] using string_ind4; intros D N.
  - now elim N.
  - simpl. now use_digits.
  - simpl. now use_digits.
  - simpl. now use_digits.
  - destruct r as [|e r].
    + simpl. now use_digits.
    + destruct (chunk4_cons a b c d e r) as (x & l & E & ->).
      rewrite join_cons2, <- E.
      four_digits D Da Db Dc Dd.
      specialize (IH D ltac:(discriminate)).
      cbn [append Shape.blocks]. rewrite Da, Db, Dc, Dd.
      exact IH.
Qed.

Lemma join_chunk4_length (m : string) :
  m <> "" ->
  4 * (String.length (JS.join " " (Shape.chunk4 m)) + 1)
  <= 5 * String.length m + 3.
Proof.
  induction m as [|a|a b|a b c|a b c d r IH] using string_ind4; intros N.
  - now elim N.
  - simpl. lia.
  - simpl. lia.
  - simpl. lia.
  - destruct r as [|e r].
    + simpl. lia.
    + destruct (chunk4_cons a b c d e r) as (x & l & E & ->).
      rewrite join_cons2, <- E.
      specialize (IH ltac:(discriminate)).
      cbn [append String.length] in *. lia.
Qed.

Lemma join_chunk4_remove_spaces (m : string) :
  JS.forallb JS.is_digit m = true ->
  JS.remove_spaces (JS.join " " (Shape.chunk4 m)) = m.
Proof.
  unfold JS.remove_spaces.
  induction m as [|a|a b|a b c|a b c d r IH] using string_ind4; intros D.
  - reflexivity.
  - simpl. now use_digits.
  - simpl. now use_digits.
  - simpl. now use_digits.
  - destruct r as [|e r].
    + simpl. now use_digits.
    + destruct (chunk4_cons a b c d e r) as (x & l & E & ->).
      rewrite join_cons2, <- E.
      four_digits D Da Db Dc Dd.
      specialize (IH D).
      cbn [append JS.filter].
      rewrite (digit_not_space a Da), (digit_not_space b Db),
        (digit_not_space c Dc), (digit_not_space d Dd).
      cbn [negb]. change (JS.is_space " ") with true. cbn [negb].
      now rewrite IH.
Qed.

(** ** [formatCardNumber] and [formatExpiryDate] *)

(** The two branches of [formatCardNumber]: with four digits or more in
    the input, its first sixteen digits in groups of four; otherwise the
    input as it is. *)
Lemma formatCardNumber_cases (value : string) :
  Card.formatCardNumber value
  = if 4 <=? String.length (JS.keep_digits value)
    then JS.join " "
           (Shape.chunk4 (String.substring 0 16 (JS.keep_digits value)))
    else value.
Proof.
  unfold Card.formatCardNumber. cbv zeta.
  rewrite keep_digits_remove_spaces, parts_chunk4.
  rewrite first_match_all by apply forallb_filter.
  destruct (4 <=? String.length (JS.keep_digits value)) eqn:E.
  - destruct (Shape.chunk4 _) as [|x l] eqn:C; [|reflexivity].
    apply chunk4_nil in C. apply (f_equal String.length) in C.
    rewrite length_substring0 in C. apply Nat.leb_le in E.
    change (String.length "") with 0 in C. lia.
  - reflexivity.
Qed.

Lemma formatted_grouped (value : string) :
  4 <= Shape.count_digits value ->
  Shape.grouped (Card.formatCardNumber value) = true
  /\ String.length (Card.formatCardNumber value) <= 19
  /\ JS.remove_spaces (Card.formatCardNumber value)
     = String.substring 0 16 (JS.keep_digits value).
Proof.
  unfold Shape.count_digits. intros H.
  rewrite formatCardNumber_cases.
  replace (4 <=? String.length (JS.keep_digits value)) with true
    by (symmetry; now apply Nat.leb_le).
  set (m := String.substring 0 16 (JS.keep_digits value)).
  assert (D : JS.forallb JS.is_digit m = true)
    by (apply forallb_substring0, forallb_filter).
  assert (N : m <> "").
  { apply substring0_nonempty; [lia|].
    intros Z. rewrite Z in H. simpl in H. lia. }
  assert (L : String.length m <= 16)
    by (unfold m; rewrite length_substring0; lia).
  split; [|split].
  - pose proof (join_chunk4_blocks m D N) as B.
    unfold Shape.grouped.
    destruct (JS.join " " (Shape.chunk4 m)); [reflexivity|exact B].
  - pose proof (join_chunk4_length m N). lia.
  - now apply join_chunk4_remove_spaces.
Qed.

Lemma formatted_raw (value : string) :
  Shape.count_digits value < 4 -> Card.formatCardNumber value = value.
Proof.
  unfold Shape.count_digits. intros H. rewrite formatCardNumber_cases.
  replace (4 <=? String.length (JS.keep_digits value)) with false
    by (symmetry; now apply Nat.leb_gt).
  reflexivity.
Qed.

Lemma formatExpiryDate_kept (value : string) :
  String.length (Card.formatExpiryDate value) <= 5
  /\ (if 2 <=? Shape.count_digits (Card.formatExpiryDate value)
      then Shape.mm_slash (Card.formatExpiryDate value)
      else JS.forallb JS.is_digit (Card.formatExpiryDate value)) = true.
Proof.
  unfold Card.formatExpiryDate. cbv zeta.
  set (v := JS.keep_digits (JS.remove_spaces value)).
  assert (D : JS.forallb JS.is_digit v = true) by apply forallb_filter.
  destruct v as [|a [|b r]].
  - split; [simpl; lia|reflexivity].
  - apply forallb_cons in D as [Da _].
    change (2 <=? String.length (String a "")) with false. cbn iota.
    split; [simpl; lia|]. unfold Shape.count_digits, JS.keep_digits.
    cbn [JS.filter]. rewrite Da. simpl. now rewrite Da.
  - apply forallb_cons in D as [Da D]. apply forallb_cons in D as [Db D].
    replace (2 <=? String.length (String a (String b r))) with true
      by reflexivity.
    assert (E : JS.substring 0 2 (String a (String b r)) ++ "/"
                ++ JS.substring 2 4 (String a (String b r))
                = String a (String b (String "/" (String.substring 0 2 r)))).
    { unfold JS.substring. simpl. destruct r; reflexivity. }
    rewrite E.
    pose proof (forallb_substring0 _ 2 r D) as D2.
    pose proof (length_substring0 2 r) as L2.
    split; [simpl; lia|].
    unfold Shape.count_digits, JS.keep_digits. cbn [JS.filter].
    rewrite Da, Db. change (JS.is_digit "/") with false. cbn iota.
    cbn [String.length Nat.leb].
    unfold Shape.mm_slash. rewrite Da, Db, D2. simpl.
    apply Nat.leb_le. lia.
Qed.

(** ** The invariant of the input handlers *)

Lemma kept_parts (st : Card.fields) :
  Shape.kept st = true <->
  Shape.card_number_kept st = true /\ Shape.cvv_claimed st = true
  /\ Shape.expiry_kept st = true.
Proof. unfold Shape.kept. rewrite !andb_true_iff. tauto. Qed.

Lemma card_number_kept_change (value : string) (st : Card.fields) :
  Shape.card_number_kept st = true ->
  Shape.card_number_kept (Card.handleCardNumberChange value st) = true.
Proof.
  intros K. unfold Card.handleCardNumberChange.
  destruct (String.length (Card.formatCardNumber value) <=? 19) eqn:L;
    [|exact K].
  unfold Shape.card_number_kept. cbn [Card.cardNumber]. rewrite L.
  cbn [andb].
  destruct (le_lt_dec 4 (Shape.count_digits value)) as [G|G].
  - destruct (formatted_grouped value G) as (-> & _).
    now destruct (4 <=? _).
  - rewrite (formatted_raw value G).
    replace (4 <=? Shape.count_digits value) with false
      by (symmetry; now apply Nat.leb_gt).
    reflexivity.
Qed.

Lemma expiry_kept_change (value : string) (st : Card.fields) :
  Shape.expiry_kept (Card.handleExpiryDateChange value st) = true.
Proof.
  unfold Card.handleExpiryDateChange.
  destruct (formatExpiryDate_kept value) as [L K].
  replace (String.length (Card.formatExpiryDate value) <=? 5) with true
    by (symmetry; now apply Nat.leb_le).
  unfold Shape.expiry_kept. cbn [Card.expiryDate].
  rewrite K. apply andb_true_iff. split; [now apply Nat.leb_le|reflexivity].
Qed.

Lemma cvv_kept_change (value : string) (st : Card.fields) :
  Shape.cvv_claimed st = true ->
  Shape.cvv_claimed (Card.handleCvvChange value st) = true.
Proof.
  intros K. unfold Card.handleCvvChange.
  destruct (String.length (JS.keep_digits value) <=? 4) eqn:L; [|exact K].
  unfold Shape.cvv_claimed. cbn [Card.cvv]. rewrite L.
  unfold JS.keep_digits. now rewrite forallb_filter.
Qed.

Lemma kept_handle (st : Card.fields) (e : Card.input_event) :
  Shape.kept st = true -> Shape.kept (Card.handle st e) = true.
Proof.
  rewrite !kept_parts. intros (C & V & E).
  destruct e as [v|v|v|v|g]; cbn [Card.handle].
  - split; [now apply card_number_kept_change|].
    unfold Card.handleCardNumberChange.
    destruct (_ <=? 19); auto.
  - split; [|split; [|apply expiry_kept_change]];
      unfold Card.handleExpiryDateChange;
      destruct (_ <=? 5); auto.
  - split; [|split; [now apply cvv_kept_change|]];
      unfold Card.handleCvvChange;
      destruct (_ <=? 4); auto.
  - auto.
  - auto.
Qed.

Lemma kept_fold (es : list Card.input_event) (st : Card.fields) :
  Shape.kept st = true -> Shape.kept (fold_left Card.handle es st) = true.
Proof.
  revert st. induction es as [|e es IH]; intros st K; [exact K|].
  simpl. apply IH. now apply kept_handle.
Qed.

(** C10, as amended: after every sequence of input-change events the card
    number has at most 19 characters and, once it holds four digits, is
    made of digits only, in blocks of at most four with single spaces in
    between; the cvv is made of at most four digits; the expiry date has at
    most five characters and is either at most one digit, or two digits, a
    slash and at most two more digits. *)
Theorem input_invariant (gateway : string) (es : list Card.input_event) :
  Shape.kept (Card.run gateway es) = true.
Proof. apply kept_fold. reflexivity. Qed.

(** C10, as worded, fails: typing abc leaves a card number that is not made
    of digits, and typing 12 leaves the expiry date 12/, which is not
    MM/YY. *)
Lemma input_invariant_claimed_fails :
  Card.cardNumber (Card.run "auto" [Card.CardNumberChange "abc"]) = "abc"
  /\ Shape.card_number_claimed
       (Card.run "auto" [Card.CardNumberChange "abc"]) = false
  /\ Card.expiryDate (Card.run "auto" [Card.ExpiryDateChange "12"]) = "12/"
  /\ Shape.expiry_claimed
       (Card.run "auto" [Card.ExpiryDateChange "12"]) = false
  /\ Shape.claimed (Card.run "auto" [Card.CardNumberChange "abc"]) = false.
Proof. repeat split; reflexivity. Qed.

(** ** [handleSubmit] of the generic card form *)

Section Submit.

Variable p : Generic.props.
Variable st : Card.fields.
Variable net : Generic.request -> Generic.axios_outcome.
Variable u : Generic.ui.

(** A missing field: the [throw] comes before [axios.post]. *)
Lemma handleSubmit_invalid :
  Generic.all_filled st = false ->
  fst (Generic.handleSubmit p st net u)
  = [Generic.OnError "Please fill in all fields"].
Proof.
  intros H. unfold Generic.handleSubmit, Generic.try_block. now rewrite H.
Qed.

(** All fields filled: one POST, then one callback. *)
Lemma handleSubmit_events :
  Generic.all_filled st = true ->
  fst (Generic.handleSubmit p st net u)
  = Generic.Post (Generic.build_request p st)
    :: match net (Generic.build_request p st) with
       | Generic.Rejected err =>
           [Generic.OnError (JS.ToString (Generic.errorMessage err))]
       | Generic.Resolved (Some d) =>
           if Generic.completed (Some d)
           then [Generic.OnSuccess d]
           else [Generic.OnError
                   (JS.ToString
                      (Generic.errorMessage
                         (Generic.Error
                            (JS.first_truthy_value [Generic.error_message d]
                               (JS.VString "Payment failed")))))]
       | Generic.Resolved None => [Generic.OnError "Payment failed"]
       end.
Proof.
  intros H. unfold Generic.handleSubmit, Generic.try_block. rewrite H.
  cbn [negb].
  destruct (net (Generic.build_request p st)) as [[d|]|err]; try reflexivity.
  destruct (Generic.completed (Some d)); reflexivity.
Qed.

Lemma posts_handleSubmit :
  Generic.all_filled st = true ->
  Generic.posts (fst (Generic.handleSubmit p st net u))
  = [Generic.build_request p st].
Proof.
  intros H. rewrite (handleSubmit_events H).
  destruct (net (Generic.build_request p st)) as [[d|]|err]; try reflexivity.
  destruct (Generic.completed (Some d)); reflexivity.
Qed.

(** The card form calls [onSuccess] exactly when all fields are filled and
    the request resolves with [status === 'completed']. *)
Lemma generic_success :
  Generic.successes (fst (Generic.handleSubmit p st net u))
  = if Generic.all_filled st
    then match net (Generic.build_request p st) with
         | Generic.Resolved (Some d) =>
             if Generic.completed (Some d) then [d] else []
         | _ => []
         end
    else [].
Proof.
  destruct (Generic.all_filled st) eqn:H.
  - rewrite (handleSubmit_events H).
    destruct (net (Generic.build_request p st)) as [[d|]|err]; try reflexivity.
    destruct (Generic.completed (Some d)); reflexivity.
  - now rewrite (handleSubmit_invalid H).
Qed.

End Submit.

Lemma posts_app (a b : list Generic.event) :
  Generic.posts (a ++ b) = (Generic.posts a ++ Generic.posts b)%list.
Proof. apply flat_map_app. Qed.

Lemma submit_times_fst (n : nat) (p : Generic.props) (st : Card.fields)
    (net : nat -> Generic.request -> Generic.axios_outcome) (k : nat)
    (u : Generic.ui) :
  fst (Generic.submit_times (S n) p st net k u)
  = (fst (Generic.handleSubmit p st (net k) u)
     ++ fst (Generic.submit_times n p st net (S k)
               (snd (Generic.handleSubmit p st (net k) u))))%list.
Proof.
  cbn [Generic.submit_times].
  destruct (Generic.handleSubmit p st (net k) u) as [evs u'].
  destruct (Generic.submit_times n p st net (S k) u') as [evs' u''] eqn:E.
  cbn [fst snd]. now rewrite E.
Qed.

Lemma token_of_entered (value : string) (st : Card.fields) :
  4 <= Shape.count_digits value ->
  JS.substring 0 16
    (JS.remove_spaces (Card.cardNumber (Card.handleCardNumberChange value st)))
  = String.substring 0 16 (JS.keep_digits value).
Proof.
  intros H. destruct (formatted_grouped value H) as (_ & L & R).
  unfold Card.handleCardNumberChange.
  replace (String.length (Card.formatCardNumber value) <=? 19) with true
    by (symmetry; now apply Nat.leb_le).
  cbn [Card.cardNumber]. rewrite R. unfold JS.substring. cbn [Nat.sub].
  apply substring0_idem.
Qed.

Lemma float_neq (x y : float) : PrimFloat.Leibniz.eqb x y = false -> x <> y.
Proof.
  intros H E. apply Leibniz.eqb_spec in E. rewrite E in H. discriminate H.
Qed.

(** ** The properties of the specification *)

(** C1, at the input where the code departs from it: on the demo page
    (4.39 USD, gateway auto, card form filled) the request goes to
    [/process/stripe], whatever the server answers, although by the fee
    table Square would charge 21 cents against Stripe's 43 and is ranked
    first. *)
Theorem auto_gateway_posts_to_stripe
    (net : Generic.request -> Generic.axios_outcome) (u : Generic.ui) :
  map Generic.url
    (Generic.posts (fst (Generic.handleSubmit Demo.props Demo.filled net u)))
  = ["http://localhost:8002/process/stripe"]
  /\ Stripe.amountInCents (Generic.amount Demo.props) = Num.of_Z 439
  /\ Fees.estimate 439 "USD" Fees.stripe = Some 43%Z
  /\ Fees.estimate 439 "USD" Fees.square = Some 21%Z
  /\ Fees.rank 439 "USD" [Fees.stripe; Fees.square; Fees.paypal]
     = ["square"; "stripe"; "paypal"].
Proof.
  split; [|repeat split].
  rewrite posts_handleSubmit by reflexivity. reflexivity.
Qed.

(** C2, as amended: every call of [handleSubmit] with the four card fields
    filled sends its own POST and reports what its own response says: [n]
    submissions of the same form issue [n] times the same request, and the
    events of the [k]-th call are that request followed by the callback
    its own response calls for, whatever the server answered before. *)
Theorem resubmission_posts_again (n : nat) (p : Generic.props)
    (st : Card.fields) (net : nat -> Generic.request -> Generic.axios_outcome)
    (u : Generic.ui) :
  Generic.all_filled st = true ->
  Generic.posts (fst (Generic.submit_times n p st net 0 u))
  = repeat (Generic.build_request p st) n
  /\ fst (Generic.submit_times n p st net 0 u)
     = flat_map
         (fun k =>
            Generic.Post (Generic.build_request p st)
            :: match net k (Generic.build_request p st) with
               | Generic.Rejected err =>
                   [Generic.OnError (JS.ToString (Generic.errorMessage err))]
               | Generic.Resolved (Some d) =>
                   if Generic.completed (Some d)
                   then [Generic.OnSuccess d]
                   else [Generic.OnError
                           (JS.ToString
                              (Generic.errorMessage
                                 (Generic.Error
                                    (JS.first_truthy_value
                                       [Generic.error_message d]
                                       (JS.VString "Payment failed")))))]
               | Generic.Resolved None => [Generic.OnError "Payment failed"]
               end)
         (seq 0 n).
Proof.
  intros H. generalize 0 as k. revert u.
  induction n as [|n IH]; intros u k; [split; reflexivity|].
  destruct (IH (snd (Generic.handleSubmit p st (net k) u)) (S k)) as [P E].
  rewrite submit_times_fst. split.
  - rewrite posts_app, posts_handleSubmit by exact H.
    rewrite P. reflexivity.
  - rewrite E, (handleSubmit_events p st (net k) u H). reflexivity.
Qed.

Lemma resubmission_posts_again_witness :
  Generic.all_filled Demo.filled = true
  /\ Generic.posts
       (fst (Generic.submit_times 2 Demo.props Demo.filled Demo.completing 0
               Generic.initial_ui))
     = repeat (Generic.build_request Demo.props Demo.filled) 2
  /\ map Generic.transaction_id
       (Generic.successes
          (fst (Generic.submit_times 2 Demo.props Demo.filled Demo.completing
                  0 Generic.initial_ui)))
     = ["txn_1"; "txn_2"].
Proof.
  split; [reflexivity|].
  destruct (resubmission_posts_again 2 Demo.props Demo.filled Demo.completing
              Generic.initial_ui eq_refl) as [P E].
  split; [exact P|]. rewrite E. reflexivity.
Defined.

(** C2, as worded, fails: submitting the demo form twice sends the request
    twice, and the second call hands the caller the second transaction. *)
Lemma replay_posts_twice :
  Generic.posts
    (fst (Generic.submit_times 2 Demo.props Demo.filled Demo.completing 0
            Generic.initial_ui))
  = [Demo.request; Demo.request]
  /\ map Generic.transaction_id
       (Generic.successes
          (fst (Generic.submit_times 2 Demo.props Demo.filled Demo.completing 0
                  Generic.initial_ui)))
     = ["txn_1"; "txn_2"].
Proof. split; reflexivity. Qed.

(** C3, as amended: when the request to the selected gateway fails, no
    other provider is attempted; the handler has sent that one request and
    reports the failure through [onError]. *)
Theorem failure_ends_the_attempt (p : Generic.props) (st : Card.fields)
    (net : Generic.request -> Generic.axios_outcome) (u : Generic.ui)
    (err : Generic.js_error) :
  Generic.all_filled st = true ->
  net (Generic.build_request p st) = Generic.Rejected err ->
  fst (Generic.handleSubmit p st net u)
  = [Generic.Post (Generic.build_request p st);
     Generic.OnError (JS.ToString (Generic.errorMessage err))].
Proof.
  intros H R. rewrite (handleSubmit_events p st net u H), R. reflexivity.
Qed.

Lemma failure_ends_the_attempt_witness :
  fst (Generic.handleSubmit Demo.props Demo.filled Demo.timing_out
         Generic.initial_ui)
  = [Generic.Post Demo.request;
     Generic.OnError "timeout of 10000ms exceeded"].
Proof.
  apply (failure_ends_the_attempt Demo.props Demo.filled Demo.timing_out
           Generic.initial_ui
           (Generic.mkError None (Some "timeout of 10000ms exceeded")));
    reflexivity.
Defined.

(** C3, as worded, fails: when the request to Stripe times out, that
    request is the only one; Square and PayPal are never tried. *)
Lemma no_second_provider_after_timeout :
  map Generic.url
    (Generic.posts
       (fst (Generic.handleSubmit Demo.props Demo.filled Demo.timing_out
               Generic.initial_ui)))
  = ["http://localhost:8002/process/stripe"]
  /\ Generic.failures
       (fst (Generic.handleSubmit Demo.props Demo.filled Demo.timing_out
               Generic.initial_ui))
     = ["timeout of 10000ms exceeded"].
Proof. split; reflexivity. Qed.

(** C4, as amended: the validation of [handleSubmit] is the test that none
    of the four card fields is empty, and nothing else. A submission with
    an empty field ends in a failure before any request is sent: the only
    event is the [onError] call. With the four fields filled the request
    is sent, whatever the amount, the currency and the card number are. *)
Theorem only_empty_fields_are_rejected (p : Generic.props)
    (st : Card.fields) (net : Generic.request -> Generic.axios_outcome)
    (u : Generic.ui) :
  Generic.posts (fst (Generic.handleSubmit p st net u))
  = (if Generic.all_filled st then [Generic.build_request p st] else [])
  /\ (if Generic.all_filled st then True
      else
        fst (Generic.handleSubmit p st net u)
        = [Generic.OnError "Please fill in all fields"]
        /\ Generic.successes (fst (Generic.handleSubmit p st net u)) = []
        /\ Generic.error (snd (Generic.handleSubmit p st net u))
           = Some (JS.VString "Please fill in all fields")
        /\ Generic.showErrorModal (snd (Generic.handleSubmit p st net u))
           = true
        /\ Generic.loading (snd (Generic.handleSubmit p st net u)) = false).
Proof.
  destruct (Generic.all_filled st) eqn:H.
  - split; [now apply posts_handleSubmit|exact I].
  - rewrite (handleSubmit_invalid p st net u H).
    unfold Generic.handleSubmit, Generic.try_block. rewrite H.
    repeat split.
Qed.

(** C4, as worded, fails: a request for minus five dollars, and a request
    whose card number is the letters abc, pass the validation and are
    posted. *)
Lemma invalid_requests_are_posted :
  PrimFloat.ltb 0 (Generic.amount Demo.negative_amount) = false
  /\ map (fun r => Generic.b_amount (Generic.payload r))
       (Generic.posts
          (fst (Generic.handleSubmit Demo.negative_amount Demo.filled
                  (Demo.completing 0) Generic.initial_ui)))
     = [(-5)%float]
  /\ Card.cardNumber Demo.lettered = "abc"
  /\ map (fun r => Generic.token (Generic.b_payment_token (Generic.payload r)))
       (Generic.posts
          (fst (Generic.handleSubmit Demo.props Demo.lettered
                  (Demo.completing 0) Generic.initial_ui)))
     = ["abc"].
Proof. repeat split; reflexivity. Qed.



(** C6, at the input where the code departs from it: for the same 4.39
    USD the Stripe form puts 439 (cents) in the [amount] field while the
    card form, addressing the Stripe endpoint, puts 4.39 there. *)
Theorem amount_unit_differs_between_forms
    (id : string) (e : Stripe.env)
    (net : Generic.request -> Generic.axios_outcome)
    (snet : Stripe.request -> Stripe.fetch_outcome) (u : Generic.ui) :
  map (fun r => (Generic.url r, Generic.b_amount (Generic.payload r)))
    (Generic.posts (fst (Generic.handleSubmit Demo.props Demo.filled net u)))
  = [("http://localhost:8002/process/stripe", 4.39%float)]
  /\ map (fun r => Stripe.b_amount (Stripe.payload r))
       (Stripe.fetches
          (fst (Stripe.handleSubmit true true Demo.stripe_props e
                  Demo.stripe_form (Stripe.Created id) snet)))
     = [439%float]
  /\ 4.39%float <> 439%float.
Proof.
  split; [|split].
  - rewrite posts_handleSubmit by reflexivity. reflexivity.
  - unfold Stripe.handleSubmit.
    cbn [negb orb Stripe.isProcessing Demo.stripe_form].
    destruct (snet _) as [[|] r|m]; reflexivity.
  - apply float_neq. reflexivity.
Qed.

(** C7, at the input where the code departs from it: the Stripe form
    calls [onSuccess] with whatever body an ok response carries, its
    [status] not being looked at, so also with one that says failed; the
    card form, given the same status, does not. *)
Theorem stripe_form_success_ignores_status (id : string) (e : Stripe.env)
    (r : Stripe.result) (u : Generic.ui) :
  Stripe.successes
    (fst (Stripe.handleSubmit true true Demo.stripe_props e
            Demo.stripe_form (Stripe.Created id)
            (fun _ => Stripe.Responded true r)))
  = [r]
  /\ Stripe.r_status Demo.failed_result = Some "failed"
  /\ Stripe.successes
       (fst (Stripe.handleSubmit true true Demo.stripe_props e
               Demo.stripe_form (Stripe.Created id)
               (fun _ => Stripe.Responded true Demo.failed_result)))
     = [Demo.failed_result]
  /\ Generic.successes
       (fst (Generic.handleSubmit Demo.props Demo.filled
               (fun _ => Generic.Resolved
                           (Some (Generic.mkData "txn_1" "stripe"
                                    (Some "failed") None))) u))
     = [].
Proof. repeat split. Qed.

(** The bounded check behind C8. *)
Lemma cents_exact_from_sound (fuel : nat) (c0 : Z) :
  Stripe.cents_exact_from fuel c0 = true ->
  forall c, (c0 <= c < c0 + Z.of_nat fuel)%Z ->
  Stripe.amountInCents (Num.of_cents c) = Num.of_Z c.
Proof.
  revert c0. induction fuel as [|fuel IH]; intros c0 H c R; [lia|].
  simpl in H. apply andb_true_iff in H. destruct H as [H1 H2].
  destruct (Z.eq_dec c c0) as [->|N].
  - now apply Leibniz.eqb_spec.
  - apply (IH (c0 + 1)%Z H2). lia.
Qed.

Lemma cents_exact_all : Stripe.cents_exact_from (Z.to_nat 100001) 0 = true.
Proof. vm_cast_no_check (eq_refl true). Qed.

(** C8, as amended: amounts are binary64 numbers and the Stripe form gets
    the minor units as [Math.round(amount * 100)] in that arithmetic; for
    every amount with two decimals from 0.00 to 1000.00 the result is the
    exact number of cents. *)
Theorem cents_of_two_decimal_amounts (c : Z) :
  (0 <= c <= 100000)%Z ->
  Stripe.amountInCents (Num.of_cents c) = Num.of_Z c.
Proof.
  intros R. apply (cents_exact_from_sound _ 0 cents_exact_all). lia.
Qed.

Lemma cents_of_two_decimal_amounts_witness :
  Stripe.amountInCents (Num.of_cents 439) = Num.of_Z 439.
Proof. apply (cents_of_two_decimal_amounts 439). lia. Defined.

(** C8, as worded, fails: the amount 4.39 is the binary64 number nearest to
    439/100, and its product by 100 is 438.99999999999994, not the 439 that
    decimal fixed-point arithmetic gives. *)
Lemma amount_product_is_binary :
  Num.of_cents 439 = 4.39%float
  /\ Stripe.scaled 4.39%float = 438.99999999999994%float
  /\ Stripe.scaled (Num.of_cents 439) <> Num.of_Z 439.
Proof.
  split; [reflexivity|]. split; [reflexivity|]. apply float_neq. reflexivity.
Qed.

(** C9, as amended: every request of the card form carries the e-mail
    address customer@example.com and the brand visa, and its token is the
    first sixteen characters of the card number without its white space;
    when the card number was typed with four digits or more, these are the
    first sixteen digits typed. *)
Theorem card_form_request_constants (p : Generic.props) (st : Card.fields)
    (net : Generic.request -> Generic.axios_outcome) (u : Generic.ui) :
  Generic.all_filled st = true ->
  exists req,
    Generic.posts (fst (Generic.handleSubmit p st net u)) = [req]
    /\ Generic.email (Generic.b_customer (Generic.payload req))
       = "customer@example.com"
    /\ Generic.brand (Generic.b_payment_token (Generic.payload req)) = "visa"
    /\ Generic.token (Generic.b_payment_token (Generic.payload req))
       = JS.substring 0 16 (JS.remove_spaces (Card.cardNumber st))
    /\ forall value st0,
         4 <= Shape.count_digits value ->
         st = Card.handleCardNumberChange value st0 ->
         Generic.token (Generic.b_payment_token (Generic.payload req))
         = String.substring 0 16 (JS.keep_digits value).
Proof.
  intros H. exists (Generic.build_request p st).
  split; [now apply posts_handleSubmit|].
  repeat split.
  intros value st0 D ->. now apply token_of_entered.
Qed.

Lemma card_form_request_constants_witness :
  exists req,
    Generic.posts
      (fst (Generic.handleSubmit Demo.props Demo.filled (Demo.completing 0)
              Generic.initial_ui)) = [req]
    /\ Generic.email (Generic.b_customer (Generic.payload req))
       = "customer@example.com"
    /\ Generic.brand (Generic.b_payment_token (Generic.payload req)) = "visa"
    /\ Generic.token (Generic.b_payment_token (Generic.payload req))
       = "4242424242424242".
Proof.
  destruct (card_form_request_constants Demo.props Demo.filled
              (Demo.completing 0) Generic.initial_ui eq_refl)
    as (req & P & E & B & T & _).
  exists req. repeat split; assumption.
Defined.

(** C9, as worded, fails: with 12a typed as the card number the token is
    12a, which is not made of digits and is not the digits typed, 12. *)
Lemma token_with_a_letter :
  Card.cardNumber Demo.short_number = "12a"
  /\ map (fun r => Generic.token (Generic.b_payment_token (Generic.payload r)))
       (Generic.posts
          (fst (Generic.handleSubmit Demo.props Demo.short_number
                  (Demo.completing 0) Generic.initial_ui)))
     = ["12a"]
  /\ JS.forallb JS.is_digit "12a" = false
  /\ String.substring 0 16 (JS.keep_digits "12a") = "12".
Proof. repeat split; reflexivity. Qed.

(** ** Sample runs *)

Example formatCardNumber_full :
  Card.formatCardNumber "4242424242424242" = "4242 4242 4242 4242".
Proof. reflexivity. Qed.

Example formatCardNumber_long :
  Card.formatCardNumber "4242-4242-4242-4242-99" = "4242 4242 4242 4242".
Proof. reflexivity. Qed.

Example formatCardNumber_short : Card.formatCardNumber "12a" = "12a".
Proof. reflexivity. Qed.

Example formatCardNumber_five : Card.formatCardNumber "1 23x45" = "1234 5".
Proof. reflexivity. Qed.

Example formatExpiryDate_two : Card.formatExpiryDate "12" = "12/".
Proof. reflexivity. Qed.

Example formatExpiryDate_full : Card.formatExpiryDate "12/345" = "12/34".
Proof. reflexivity. Qed.

Example filled_fields :
  Demo.filled = Card.mkFields "4242 4242 4242 4242" "12/34" "123" "John Doe"
                  "auto".
Proof. reflexivity. Qed.

Example round_half :
  Num.Math_round 2.5%float = 3%float
  /\ Num.Math_round (-2.5)%float = (-2)%float
  /\ Num.Math_round (-0.2)%float = (-0)%float
  /\ Num.Math_round 0.49%float = 0%float.
Proof. repeat split; reflexivity. Qed.

Example scaled_439 : Stripe.scaled 4.39%float = 438.99999999999994%float.
Proof. reflexivity. Qed.

(** * Further properties of the forms *)

(** ** More on strings *)

Lemma filter_id (p : ascii -> bool) (s : string) :
  JS.forallb p s = true -> JS.filter p s = s.
Proof.
  induction s as [|c r IH]; simpl; [reflexivity|].
  intros H. apply andb_true_iff in H. destruct H as [-> H]. now rewrite IH.
Qed.

Lemma filter_append (p : ascii -> bool) (s t : string) :
  JS.filter p (s ++ t) = JS.filter p s ++ JS.filter p t.
Proof.
  induction s as [|c r IH]; simpl; [reflexivity|].
  destruct (p c); simpl; now rewrite IH.
Qed.

Lemma forallb_append (p : ascii -> bool) (s t : string) :
  JS.forallb p (s ++ t) = JS.forallb p s && JS.forallb p t.
Proof.
  induction s as [|c r IH]; simpl; [reflexivity|].
  now rewrite IH, andb_assoc.
Qed.

Lemma length_append (s t : string) :
  String.length (s ++ t) = String.length s + String.length t.
Proof. induction s as [|c r IH]; simpl; [reflexivity|now rewrite IH]. Qed.

Lemma append_assoc (s t w : string) : (s ++ t) ++ w = s ++ t ++ w.
Proof. induction s as [|c r IH]; simpl; [reflexivity|now rewrite IH]. Qed.

Lemma append_empty (s : string) : s ++ "" = s.
Proof. induction s as [|c r IH]; simpl; [reflexivity|now rewrite IH]. Qed.

Lemma substring0_all (n : nat) (s : string) :
  String.length s <= n -> String.substring 0 n s = s.
Proof.
  revert s. induction n as [|n IH]; intros [|c r]; simpl; intros H;
    try reflexivity; try lia.
  rewrite IH by lia. reflexivity.
Qed.

Lemma substring0_append (n : nat) (s t : string) :
  String.substring 0 n (String.substring 0 n s ++ t)
  = String.substring 0 n (s ++ t).
Proof.
  revert s. induction n as [|n IH]; intros s.
  - destruct s, t; reflexivity.
  - destruct s as [|c r]; simpl; [reflexivity|].
    now rewrite IH.
Qed.

Lemma keep_digits_digits (s : string) :
  JS.forallb JS.is_digit s = true -> JS.keep_digits s = s.
Proof. apply filter_id. Qed.

(** The digits of a formatted card number are the first sixteen digits of
    the input. *)
Lemma keep_digits_formatCardNumber (value : string) :
  JS.keep_digits (Card.formatCardNumber value)
  = String.substring 0 16 (JS.keep_digits value).
Proof.
  destruct (le_lt_dec 4 (Shape.count_digits value)) as [G|G].
  - destruct (formatted_grouped value G) as (_ & _ & R).
    rewrite <- keep_digits_remove_spaces, R.
    apply keep_digits_digits, forallb_substring0, forallb_filter.
  - rewrite (formatted_raw value G).
    symmetry. apply substring0_all. unfold Shape.count_digits in G. lia.
Qed.

Lemma count_digits_formatCardNumber (value : string) :
  Shape.count_digits (Card.formatCardNumber value)
  = Nat.min 16 (Shape.count_digits value).
Proof.
  unfold Shape.count_digits.
  now rewrite keep_digits_formatCardNumber, length_substring0.
Qed.

(** X1: formatting a formatted card number changes nothing. *)
Theorem formatCardNumber_idempotent (value : string) :
  Card.formatCardNumber (Card.formatCardNumber value)
  = Card.formatCardNumber value.
Proof.
  destruct (le_lt_dec 4 (Shape.count_digits value)) as [G|G].
  - rewrite (formatCardNumber_cases (Card.formatCardNumber value)).
    rewrite keep_digits_formatCardNumber, substring0_idem.
    rewrite length_substring0.
    unfold Shape.count_digits in G.
    replace (4 <=? Nat.min 16 (String.length (JS.keep_digits value)))
      with true by (symmetry; apply Nat.leb_le; lia).
    rewrite (formatCardNumber_cases value).
    replace (4 <=? String.length (JS.keep_digits value)) with true
      by (symmetry; now apply Nat.leb_le).
    reflexivity.
  - now rewrite !(formatted_raw value G).
Qed.

Lemma format_by_first_sixteen (v w : string) :
  4 <= Shape.count_digits v ->
  String.substring 0 16 (JS.keep_digits v)
  = String.substring 0 16 (JS.keep_digits w) ->
  Card.formatCardNumber v = Card.formatCardNumber w.
Proof.
  intros G E.
  assert (G' : 4 <= Shape.count_digits w).
  { unfold Shape.count_digits in *.
    apply (f_equal String.length) in E. rewrite !length_substring0 in E. lia. }
  rewrite (formatCardNumber_cases v), (formatCardNumber_cases w), E.
  unfold Shape.count_digits in *.
  replace (4 <=? String.length (JS.keep_digits v)) with true
    by (symmetry; now apply Nat.leb_le).
  replace (4 <=? String.length (JS.keep_digits w)) with true
    by (symmetry; now apply Nat.leb_le).
  reflexivity.
Qed.

Lemma substring0_app_long (n : nat) (s t : string) :
  n <= String.length s ->
  String.substring 0 n (s ++ t) = String.substring 0 n s.
Proof.
  revert s. induction n as [|n IH]; intros [|c r] L; simpl in *; try lia.
  - destruct t; reflexivity.
  - destruct (r ++ t); reflexivity.
  - f_equal. apply IH. lia.
Qed.

(** X2: once the input holds sixteen digits, whatever follows them does not
    change the formatted card number. *)
Theorem text_after_sixteen_digits_ignored (v w : string) :
  16 <= Shape.count_digits v ->
  Card.formatCardNumber (v ++ w) = Card.formatCardNumber v.
Proof.
  intros G. symmetry. apply format_by_first_sixteen; [lia|].
  unfold JS.keep_digits. rewrite filter_append.
  symmetry. now apply substring0_app_long.
Qed.

Lemma text_after_sixteen_digits_ignored_witness :
  Card.formatCardNumber ("4242-4242-4242-4242" ++ "-99 x")
  = Card.formatCardNumber "4242-4242-4242-4242".
Proof.
  apply (text_after_sixteen_digits_ignored "4242-4242-4242-4242" "-99 x").
  unfold Shape.count_digits. simpl. lia.
Defined.

(** X3: what a change of the card number leaves in the state: an input
    with four digits or more is always taken, formatted; an input with
    fewer is taken as it is when it has at most 19 characters and is
    dropped otherwise. *)
Theorem card_number_after_change (value : string) (st : Card.fields) :
  Card.cardNumber (Card.handleCardNumberChange value st)
  = if 4 <=? Shape.count_digits value then Card.formatCardNumber value
    else if String.length value <=? 19 then value
    else Card.cardNumber st.
Proof.
  unfold Card.handleCardNumberChange.
  destruct (le_lt_dec 4 (Shape.count_digits value)) as [G|G].
  - destruct (formatted_grouped value G) as (_ & L & _).
    replace (4 <=? Shape.count_digits value) with true
      by (symmetry; now apply Nat.leb_le).
    replace (String.length (Card.formatCardNumber value) <=? 19) with true
      by (symmetry; now apply Nat.leb_le).
    reflexivity.
  - replace (4 <=? Shape.count_digits value) with false
      by (symmetry; now apply Nat.leb_gt).
    rewrite (formatted_raw value G).
    destruct (String.length value <=? 19); reflexivity.
Qed.

Lemma change_accepted (value : string) (st : Card.fields) :
  String.length (Card.formatCardNumber value) <= 19 ->
  Card.cardNumber (Card.handleCardNumberChange value st)
  = Card.formatCardNumber value.
Proof.
  intros L. unfold Card.handleCardNumberChange.
  replace (String.length (Card.formatCardNumber value) <=? 19) with true
    by (symmetry; now apply Nat.leb_le).
  reflexivity.
Qed.

Lemma keep_digits_key (s : string) (c : ascii) :
  JS.keep_digits (s ++ String c "")
  = JS.keep_digits s ++ (if JS.is_digit c then String c "" else "").
Proof.
  unfold JS.keep_digits. rewrite filter_append. simpl.
  now destruct (JS.is_digit c).
Qed.

(** One more digit typed after the digits [typed]. *)
Lemma type_digit_step (typed : string) (c : ascii) (st : Card.fields) :
  JS.forallb JS.is_digit typed = true -> JS.is_digit c = true ->
  Card.cardNumber st = Card.formatCardNumber typed ->
  Card.cardNumber (Typing.type_card_key c st)
  = Card.formatCardNumber (typed ++ String c "").
Proof.
  intros D Dc E. unfold Typing.type_card_key. rewrite E.
  assert (K : JS.keep_digits (typed ++ String c "") = typed ++ String c "").
  { apply keep_digits_digits. rewrite forallb_append, D. simpl. now rewrite Dc. }
  destruct (le_lt_dec 4 (String.length (typed ++ String c ""))) as [G|G].
  - assert (V : 4 <= Shape.count_digits
                      (Card.formatCardNumber typed ++ String c "")).
    { unfold Shape.count_digits.
      rewrite keep_digits_key, Dc, keep_digits_formatCardNumber.
      rewrite (keep_digits_digits typed D), length_append, length_substring0.
      rewrite length_append in G. cbn [String.length] in *. lia. }
    rewrite change_accepted
      by (destruct (formatted_grouped _ V) as (_ & L & _); exact L).
    apply format_by_first_sixteen; [exact V|].
    rewrite keep_digits_key, Dc, keep_digits_formatCardNumber, K.
    rewrite (keep_digits_digits typed D). apply substring0_append.
  - assert (R : Card.formatCardNumber typed = typed).
    { apply formatted_raw. unfold Shape.count_digits.
      rewrite (keep_digits_digits typed D).
      rewrite length_append in G. simpl in G. lia. }
    rewrite R.
    assert (R' : Card.formatCardNumber (typed ++ String c "")
                 = typed ++ String c "").
    { apply formatted_raw. unfold Shape.count_digits. now rewrite K. }
    rewrite change_accepted; [reflexivity|]. rewrite R'. lia.
Qed.

Lemma type_digits_from (keys typed : string) (st : Card.fields) :
  JS.forallb JS.is_digit typed = true ->
  JS.forallb JS.is_digit keys = true ->
  Card.cardNumber st = Card.formatCardNumber typed ->
  Card.cardNumber (Typing.type_card_keys keys st)
  = Card.formatCardNumber (typed ++ keys).
Proof.
  revert typed st. induction keys as [|c r IH]; intros typed st D K E.
  - simpl. now rewrite append_empty.
  - apply forallb_cons in K as [Dc K]. cbn [Typing.type_card_keys].
    replace (typed ++ String c r) with ((typed ++ String c "") ++ r)
      by (rewrite append_assoc; reflexivity).
    apply IH.
    + rewrite forallb_append, D. simpl. now rewrite Dc.
    + exact K.
    + now apply type_digit_step.
Qed.

(** X4: typing digits one key at a time into the empty card field leaves
    what pasting them at once leaves, the formatted digits. *)
Theorem typing_digits_formats_them (gateway keys : string) :
  JS.forallb JS.is_digit keys = true ->
  Card.cardNumber (Typing.type_card_keys keys (Card.initial gateway))
  = Card.formatCardNumber keys
  /\ Card.cardNumber (Typing.type_card_keys keys (Card.initial gateway))
     = Card.cardNumber (Card.handleCardNumberChange keys (Card.initial gateway)).
Proof.
  intros K.
  assert (T : Card.cardNumber (Typing.type_card_keys keys (Card.initial gateway))
              = Card.formatCardNumber keys).
  { apply (type_digits_from keys "" (Card.initial gateway)); trivial. }
  split; [exact T|]. rewrite T.
  symmetry. apply change_accepted.
  destruct (le_lt_dec 4 (Shape.count_digits keys)) as [G|G].
  - now destruct (formatted_grouped keys G) as (_ & L & _).
  - rewrite (formatted_raw keys G). unfold Shape.count_digits in G.
    rewrite (keep_digits_digits keys K) in G. lia.
Qed.

Lemma typing_digits_formats_them_witness :
  Card.cardNumber
    (Typing.type_card_keys "4242424242424242" (Card.initial "auto"))
  = "4242 4242 4242 4242".
Proof.
  destruct (typing_digits_formats_them "auto" "4242424242424242" eq_refl)
    as [T _].
  exact T.
Defined.

Lemma substring0_exact (n : nat) (s t : string) :
  String.length s = n -> String.substring 0 n (s ++ t) = s.
Proof.
  revert s. induction n as [|n IH]; intros [|c r] L; simpl in *;
    try discriminate.
  - destruct t; reflexivity.
  - f_equal. apply IH. lia.
Qed.

(** X5: digits typed after the sixteenth are dropped. *)
Theorem digits_after_sixteen_dropped (gateway keys more : string) :
  JS.forallb JS.is_digit keys = true ->
  JS.forallb JS.is_digit more = true ->
  String.length keys = 16 ->
  Card.cardNumber (Typing.type_card_keys (keys ++ more) (Card.initial gateway))
  = Card.cardNumber (Typing.type_card_keys keys (Card.initial gateway)).
Proof.
  intros K M L.
  rewrite (type_digits_from (keys ++ more) "" (Card.initial gateway)); trivial;
    [|rewrite forallb_append, K, M; reflexivity].
  rewrite (type_digits_from keys "" (Card.initial gateway)); trivial.
  cbn [append].
  assert (KM : JS.keep_digits (keys ++ more) = keys ++ more)
    by (apply keep_digits_digits; rewrite forallb_append, K, M; reflexivity).
  apply format_by_first_sixteen.
  - unfold Shape.count_digits. rewrite KM, length_append. lia.
  - rewrite KM, (keep_digits_digits keys K).
    rewrite (substring0_all 16 keys) by lia.
    now apply substring0_exact.
Qed.

Lemma digits_after_sixteen_dropped_witness :
  Card.cardNumber
    (Typing.type_card_keys ("4242424242424242" ++ "99") (Card.initial "auto"))
  = Card.cardNumber
      (Typing.type_card_keys "4242424242424242" (Card.initial "auto")).
Proof.
  apply (digits_after_sixteen_dropped "auto" "4242424242424242" "99");
    reflexivity.
Defined.

(** X6: once the card number holds four digits, a key that is not a digit
    changes nothing. *)
Theorem non_digit_key_ignored (value : string) (c : ascii) (st : Card.fields) :
  4 <= Shape.count_digits value ->
  Card.cardNumber st = Card.formatCardNumber value ->
  JS.is_digit c = false ->
  Typing.type_card_key c st = st.
Proof.
  intros G E Dc. unfold Typing.type_card_key. rewrite E.
  assert (V : 4 <= Shape.count_digits
                    (Card.formatCardNumber value ++ String c "")).
  { unfold Shape.count_digits.
    rewrite keep_digits_key, Dc, append_empty, keep_digits_formatCardNumber.
    rewrite length_substring0. unfold Shape.count_digits in G. lia. }
  assert (F : Card.formatCardNumber (Card.formatCardNumber value ++ String c "")
              = Card.formatCardNumber value).
  { apply format_by_first_sixteen; [exact V|].
    rewrite keep_digits_key, Dc, append_empty, keep_digits_formatCardNumber.
    apply substring0_idem. }
  unfold Card.handleCardNumberChange. rewrite F.
  destruct (formatted_grouped value G) as (_ & L & _).
  replace (String.length (Card.formatCardNumber value) <=? 19) with true
    by (symmetry; now apply Nat.leb_le).
  rewrite <- E. now destruct st.
Qed.

Lemma non_digit_key_ignored_witness :
  Typing.type_card_key "a" (Card.run "auto" [Card.CardNumberChange "4242"])
  = Card.run "auto" [Card.CardNumberChange "4242"].
Proof.
  apply (non_digit_key_ignored "4242" "a"); [|reflexivity|reflexivity].
  unfold Shape.count_digits. simpl. lia.
Defined.

(** ** The expiry date *)

Ltac digits4 D :=
  repeat match type of D with
         | JS.forallb _ (String _ _) = true =>
             let H := fresh "Dg" in
             apply forallb_cons in D as [H D]
         end.

(** Only the first four digits of the input count. *)
Lemma formatExpiryDate_first_four (value : string) :
  Card.formatExpiryDate value
  = Card.formatExpiryDate (String.substring 0 4 (JS.keep_digits value)).
Proof.
  unfold Card.formatExpiryDate. cbv zeta.
  rewrite !keep_digits_remove_spaces.
  assert (D : JS.forallb JS.is_digit (JS.keep_digits value) = true)
    by apply forallb_filter.
  rewrite (keep_digits_digits (String.substring 0 4 (JS.keep_digits value)))
    by now apply forallb_substring0.
  destruct (JS.keep_digits value) as [|a [|b [|c [|d r]]]]; try reflexivity.
  unfold JS.substring. simpl. destruct r; reflexivity.
Qed.

Lemma keep_digits_formatExpiryDate (value : string) :
  JS.keep_digits (Card.formatExpiryDate value)
  = String.substring 0 4 (JS.keep_digits value).
Proof.
  unfold Card.formatExpiryDate. cbv zeta.
  rewrite keep_digits_remove_spaces.
  assert (D : JS.forallb JS.is_digit (JS.keep_digits value) = true)
    by apply forallb_filter.
  destruct (JS.keep_digits value) as [|a [|b [|c [|d r]]]]; digits4 D.
  - reflexivity.
  - simpl. unfold JS.keep_digits. simpl. now rewrite Dg.
  - unfold JS.substring, JS.keep_digits. simpl. now rewrite Dg, Dg0.
  - unfold JS.substring, JS.keep_digits. simpl. now rewrite Dg, Dg0, Dg1.
  - unfold JS.substring, JS.keep_digits. simpl.
    rewrite Dg, Dg0, Dg1, Dg2. destruct r; reflexivity.
Qed.

(** X7: formatting a formatted expiry date changes nothing. *)
Theorem formatExpiryDate_idempotent (value : string) :
  Card.formatExpiryDate (Card.formatExpiryDate value)
  = Card.formatExpiryDate value.
Proof.
  rewrite (formatExpiryDate_first_four (Card.formatExpiryDate value)).
  rewrite keep_digits_formatExpiryDate, substring0_idem.
  symmetry. apply formatExpiryDate_first_four.
Qed.

(** X8: the formatted expiry date is a full MM/YY exactly when the input
    holds four digits or more. *)
Theorem expiry_complete_iff_four_digits (value : string) :
  Shape.mmyy (Card.formatExpiryDate value) = (4 <=? Shape.count_digits value).
Proof.
  unfold Shape.count_digits, Card.formatExpiryDate. cbv zeta.
  rewrite keep_digits_remove_spaces.
  assert (D : JS.forallb JS.is_digit (JS.keep_digits value) = true)
    by apply forallb_filter.
  destruct (JS.keep_digits value) as [|a [|b [|c [|d r]]]]; digits4 D;
    try reflexivity.
  unfold JS.substring. simpl. rewrite Dg, Dg0, Dg1, Dg2.
  destruct r; reflexivity.
Qed.

Lemma expiry_change_accepted (value : string) (st : Card.fields) :
  Card.expiryDate (Card.handleExpiryDateChange value st)
  = Card.formatExpiryDate value.
Proof.
  unfold Card.handleExpiryDateChange.
  destruct (formatExpiryDate_kept value) as [L _].
  replace (String.length (Card.formatExpiryDate value) <=? 5) with true
    by (symmetry; now apply Nat.leb_le).
  reflexivity.
Qed.

Lemma type_expiry_from (keys typed : string) (st : Card.fields) :
  JS.forallb JS.is_digit typed = true ->
  JS.forallb JS.is_digit keys = true ->
  Card.expiryDate st = Card.formatExpiryDate typed ->
  Card.expiryDate (Typing.type_expiry_keys keys st)
  = Card.formatExpiryDate (typed ++ keys).
Proof.
  revert typed st. induction keys as [|c r IH]; intros typed st D K E.
  - simpl. now rewrite append_empty.
  - apply forallb_cons in K as [Dc K]. cbn [Typing.type_expiry_keys].
    replace (typed ++ String c r) with ((typed ++ String c "") ++ r)
      by (rewrite append_assoc; reflexivity).
    apply IH.
    + rewrite forallb_append, D. simpl. now rewrite Dc.
    + exact K.
    + unfold Typing.type_expiry_key. rewrite expiry_change_accepted, E.
      rewrite formatExpiryDate_first_four.
      rewrite (formatExpiryDate_first_four (typed ++ String c "")).
      f_equal.
      rewrite !keep_digits_key, Dc, keep_digits_formatExpiryDate.
      apply substring0_append.
Qed.

(** X9: typing digits one key at a time into the empty expiry field leaves
    what formatting them at once gives. *)
Theorem typing_expiry_digits (gateway keys : string) :
  JS.forallb JS.is_digit keys = true ->
  Card.expiryDate (Typing.type_expiry_keys keys (Card.initial gateway))
  = Card.formatExpiryDate keys.
Proof.
  intros K. apply (type_expiry_from keys "" (Card.initial gateway)); trivial.
Qed.

Lemma typing_expiry_digits_witness :
  Card.expiryDate (Typing.type_expiry_keys "1234" (Card.initial "auto"))
  = "12/34".
Proof. apply (typing_expiry_digits "auto" "1234"). reflexivity. Defined.

(** X10: with two digits and the slash in the expiry field, Backspace at
    the end changes nothing: the handler puts the slash back. *)
Theorem expiry_slash_cannot_be_deleted (a b : ascii) (st : Card.fields) :
  JS.is_digit a = true -> JS.is_digit b = true ->
  Card.expiryDate st = String a (String b "/") ->
  Typing.backspace_expiry st = st.
Proof.
  intros Da Db E. unfold Typing.backspace_expiry.
  rewrite E. cbn [Typing.chop].
  assert (F : Card.formatExpiryDate (String a (String b ""))
              = String a (String b "/")).
  { unfold Card.formatExpiryDate, JS.remove_spaces, JS.keep_digits.
    cbv zeta. cbn [JS.filter].
    rewrite (digit_not_space a Da), (digit_not_space b Db). cbn [negb JS.filter].
    rewrite Da, Db. reflexivity. }
  unfold Card.handleExpiryDateChange. rewrite F.
  cbn [String.length Nat.leb]. rewrite <- E. now destruct st.
Qed.

Lemma expiry_slash_cannot_be_deleted_witness :
  Typing.backspace_expiry
    (Card.run "auto" [Card.ExpiryDateChange "12"])
  = Card.run "auto" [Card.ExpiryDateChange "12"].
Proof.
  apply (expiry_slash_cannot_be_deleted "1" "2"); reflexivity.
Defined.

(** ** Outcomes of a submission *)

Lemma first_truthy_value_truthy (xs : list (option JS.value))
    (dflt : JS.value) :
  JS.truthy_value dflt = true ->
  JS.truthy_value (JS.first_truthy_value xs dflt) = true.
Proof.
  intros H. induction xs as [|[v|] r IH]; simpl; trivial.
  destruct (JS.truthy_value v) eqn:E; trivial.
Qed.

Lemma errorMessage_truthy (err : Generic.js_error) :
  JS.truthy_value (Generic.errorMessage err) = true.
Proof.
  unfold Generic.errorMessage.
  destruct (Generic.err_response err); now apply first_truthy_value_truthy.
Qed.

(** The failure a submission reports, if any. *)
Lemma failures_handleSubmit (p : Generic.props) (st : Card.fields)
    (net : Generic.request -> Generic.axios_outcome) (u : Generic.ui) :
  Generic.failures (fst (Generic.handleSubmit p st net u))
  = if Generic.all_filled st
    then match net (Generic.build_request p st) with
         | Generic.Rejected err => [JS.ToString (Generic.errorMessage err)]
         | Generic.Resolved (Some d) =>
             if Generic.completed (Some d) then []
             else [JS.ToString
                     (Generic.errorMessage
                        (Generic.Error
                           (JS.first_truthy_value [Generic.error_message d]
                              (JS.VString "Payment failed"))))]
         | Generic.Resolved None => ["Payment failed"]
         end
    else ["Please fill in all fields"].
Proof.
  destruct (Generic.all_filled st) eqn:H.
  - rewrite (handleSubmit_events p st net u H).
    destruct (net (Generic.build_request p st)) as [[d|]|err]; try reflexivity.
    destruct (Generic.completed (Some d)); reflexivity.
  - now rewrite (handleSubmit_invalid p st net u H).
Qed.

Lemma callbacks_handleSubmit (p : Generic.props) (st : Card.fields)
    (net : Generic.request -> Generic.axios_outcome) (u : Generic.ui) :
  List.length (Generic.successes (fst (Generic.handleSubmit p st net u)))
  + List.length (Generic.failures (fst (Generic.handleSubmit p st net u))) = 1.
Proof.
  rewrite generic_success, failures_handleSubmit.
  destruct (Generic.all_filled st); [|reflexivity].
  destruct (net (Generic.build_request p st)) as [[d|]|err]; try reflexivity.
  destruct (Generic.completed (Some d)); reflexivity.
Qed.

(** X11: every submission ends with the loading flags down and in exactly
    one callback, and the state shows that outcome: the payment data and
    the success modal after [onSuccess]; after [onError] the error modal,
    and as error and as message of the error data the value whose string
    conversion is the message [onError] was handed. *)
Theorem submission_outcome_shown (p : Generic.props) (st : Card.fields)
    (net : Generic.request -> Generic.axios_outcome) (u : Generic.ui) :
  Generic.loading (snd (Generic.handleSubmit p st net u)) = false
  /\ Generic.showLoadingModal (snd (Generic.handleSubmit p st net u)) = false
  /\ match Generic.successes (fst (Generic.handleSubmit p st net u)),
           Generic.failures (fst (Generic.handleSubmit p st net u)) with
     | [d], [] =>
         Generic.paymentData (snd (Generic.handleSubmit p st net u)) = Some d
         /\ Generic.showSuccessModal (snd (Generic.handleSubmit p st net u))
            = true
         /\ Generic.error (snd (Generic.handleSubmit p st net u)) = None
     | [], [m] =>
         exists v,
           Generic.error (snd (Generic.handleSubmit p st net u)) = Some v
           /\ option_map fst
                (Generic.errorData (snd (Generic.handleSubmit p st net u)))
              = Some v
           /\ Generic.showErrorModal (snd (Generic.handleSubmit p st net u))
              = true
           /\ m = JS.ToString v
     | _, _ => False
     end.
Proof.
  rewrite generic_success, failures_handleSubmit.
  unfold Generic.handleSubmit, Generic.try_block.
  destruct (Generic.all_filled st); cbn [negb].
  - destruct (net (Generic.build_request p st)) as [[d|]|err].
    + destruct (Generic.completed (Some d)); [repeat split|].
      split; [reflexivity|]. split; [reflexivity|].
      eexists. repeat split.
    + split; [reflexivity|]. split; [reflexivity|].
      eexists. repeat split.
    + split; [reflexivity|]. split; [reflexivity|].
      eexists. repeat split.
  - split; [reflexivity|]. split; [reflexivity|].
    eexists. repeat split.
Qed.

(** X12: after a failed submission the value shown as error is truthy, and
    the message handed to [onError] is its string conversion: when the
    value is a string, that string, which is then not empty. *)
Theorem error_shown_is_truthy (p : Generic.props) (st : Card.fields)
    (net : Generic.request -> Generic.axios_outcome) (u : Generic.ui) :
  match Generic.error (snd (Generic.handleSubmit p st net u)) with
  | None => Generic.failures (fst (Generic.handleSubmit p st net u)) = []
  | Some (JS.VString s) =>
      Generic.failures (fst (Generic.handleSubmit p st net u)) = [s]
      /\ s <> ""
  | Some (JS.VOther truthy text) =>
      Generic.failures (fst (Generic.handleSubmit p st net u)) = [text]
      /\ truthy = true
  end.
Proof.
  assert (T : forall v, JS.truthy_value v = true ->
              match v with
              | JS.VString s => [JS.ToString v] = [s] /\ s <> ""
              | JS.VOther truthy text =>
                  [JS.ToString v] = [text] /\ truthy = true
              end).
  { intros [s|t text] H; simpl in *; split; trivial.
    intros ->. discriminate H. }
  rewrite failures_handleSubmit.
  unfold Generic.handleSubmit, Generic.try_block.
  destruct (Generic.all_filled st); cbn [negb].
  - destruct (net (Generic.build_request p st)) as [[d|]|err].
    + destruct (Generic.completed (Some d)); [reflexivity|].
      apply (T _ (errorMessage_truthy _)).
    + split; [reflexivity|discriminate].
    + apply (T _ (errorMessage_truthy _)).
  - split; [reflexivity|discriminate].
Qed.

(** X13: from a form that is not loading and shows no error, a failed
    submission followed by Try Again leaves the state as it was before the
    submission. *)
Theorem retry_restores_the_form (p : Generic.props) (st : Card.fields)
    (net : Generic.request -> Generic.axios_outcome) (u : Generic.ui) :
  Generic.loading u = false ->
  Generic.showLoadingModal u = false ->
  Generic.error u = None ->
  Generic.showErrorModal u = false ->
  Generic.errorData u = None ->
  Generic.successes (fst (Generic.handleSubmit p st net u)) = [] ->
  Payment.handleRetry (snd (Generic.handleSubmit p st net u)) = u.
Proof.
  destruct u as [l e ss se sl pd ed]. simpl.
  intros -> -> -> -> ->. rewrite generic_success.
  unfold Generic.handleSubmit, Generic.try_block.
  destruct (Generic.all_filled st); cbn [negb]; [|reflexivity].
  destruct (net (Generic.build_request p st)) as [[d|]|err]; try reflexivity.
  destruct (Generic.completed (Some d)); [discriminate|reflexivity].
Qed.

Lemma retry_restores_the_form_witness :
  Payment.handleRetry
    (snd (Generic.handleSubmit Demo.props Demo.filled Demo.timing_out
            Generic.initial_ui))
  = Generic.initial_ui.
Proof.
  apply (retry_restores_the_form Demo.props Demo.filled Demo.timing_out
           Generic.initial_ui); reflexivity.
Defined.

(** X14: from a form that is not loading and shows neither an error nor a
    payment, a completed submission followed by Done leaves the state as
    it was before the submission. *)
Theorem success_close_restores_the_form (p : Generic.props)
    (st : Card.fields) (net : Generic.request -> Generic.axios_outcome)
    (u : Generic.ui) :
  Generic.loading u = false ->
  Generic.showLoadingModal u = false ->
  Generic.error u = None ->
  Generic.showSuccessModal u = false ->
  Generic.paymentData u = None ->
  Generic.failures (fst (Generic.handleSubmit p st net u)) = [] ->
  Payment.handleSuccessClose (snd (Generic.handleSubmit p st net u)) = u.
Proof.
  destruct u as [l e ss se sl pd ed]. simpl.
  intros -> -> -> -> ->. rewrite failures_handleSubmit.
  unfold Generic.handleSubmit, Generic.try_block.
  destruct (Generic.all_filled st); cbn [negb]; [|discriminate].
  destruct (net (Generic.build_request p st)) as [[d|]|err]; try discriminate.
  destruct (Generic.completed (Some d)); [reflexivity|discriminate].
Qed.

Lemma success_close_restores_the_form_witness :
  Payment.handleSuccessClose
    (snd (Generic.handleSubmit Demo.props Demo.filled (Demo.completing 0)
            Generic.initial_ui))
  = Generic.initial_ui.
Proof.
  apply (success_close_restores_the_form Demo.props Demo.filled
           (Demo.completing 0) Generic.initial_ui); reflexivity.
Defined.

(** X15: closing the error modal without Try Again hides the modal and
    keeps on the form the value of the failure, the one whose string
    conversion [onError] was handed. *)
Theorem dismissed_error_stays_on_the_form (p : Generic.props) (st : Card.fields)
    (net : Generic.request -> Generic.axios_outcome) (u : Generic.ui) :
  Generic.error
    (Payment.closeErrorModal (snd (Generic.handleSubmit p st net u)))
  = Generic.error (snd (Generic.handleSubmit p st net u))
  /\ option_map JS.ToString
       (Generic.error
          (Payment.closeErrorModal (snd (Generic.handleSubmit p st net u))))
     = nth_error (Generic.failures (fst (Generic.handleSubmit p st net u))) 0
  /\ Generic.showErrorModal
       (Payment.closeErrorModal (snd (Generic.handleSubmit p st net u)))
     = false.
Proof.
  rewrite failures_handleSubmit.
  unfold Generic.handleSubmit, Generic.try_block.
  destruct (Generic.all_filled st); cbn [negb]; [|repeat split].
  destruct (net (Generic.build_request p st)) as [[d|]|err];
    try (repeat split).
  destruct (Generic.completed (Some d)); repeat split.
Qed.

Lemma successes_app (a b : list Generic.event) :
  Generic.successes (a ++ b)
  = (Generic.successes a ++ Generic.successes b)%list.
Proof. apply flat_map_app. Qed.

Lemma failures_app (a b : list Generic.event) :
  Generic.failures (a ++ b)
  = (Generic.failures a ++ Generic.failures b)%list.
Proof. apply flat_map_app. Qed.

(** X16: [n] submissions in a row end in [n] callbacks, and send [n]
    requests when the four fields are filled and none when one is empty. *)
Theorem one_callback_per_submission (n : nat) (p : Generic.props)
    (st : Card.fields) (net : nat -> Generic.request -> Generic.axios_outcome)
    (k : nat) (u : Generic.ui) :
  List.length
    (Generic.successes (fst (Generic.submit_times n p st net k u)))
  + List.length
      (Generic.failures (fst (Generic.submit_times n p st net k u))) = n
  /\ List.length (Generic.posts (fst (Generic.submit_times n p st net k u)))
     = if Generic.all_filled st then n else 0.
Proof.
  revert k u. induction n as [|n IH]; intros k u.
  - simpl. now destruct (Generic.all_filled st).
  - rewrite submit_times_fst, successes_app, failures_app, posts_app.
    rewrite !length_app.
    destruct (IH (S k) (snd (Generic.handleSubmit p st (net k) u))) as [C P].
    pose proof (callbacks_handleSubmit p st (net k) u) as C1.
    split; [lia|]. rewrite P.
    destruct (Generic.all_filled st) eqn:F.
    + now rewrite posts_handleSubmit.
    + now rewrite handleSubmit_invalid.
Qed.

(** ** The form on display and the endpoint *)

(** X17: whatever the selected gateway, exactly one form is rendered: the
    provider's own for stripe, square and paypal, the card form for any
    other value. *)
Theorem exactly_one_form_rendered (selectedGateway : string) :
  Generic.rendered selectedGateway
  = match Generic.form_of selectedGateway with
    | [] => [Generic.CardForm]
    | forms => forms
    end
  /\ List.length (Generic.rendered selectedGateway) = 1.
Proof.
  unfold Generic.rendered, Generic.form_of. cbn [existsb].
  destruct (String.eqb_spec selectedGateway "stripe") as [->|N1];
    [split; reflexivity|].
  destruct (String.eqb_spec selectedGateway "square") as [->|N2];
    [split; reflexivity|].
  destruct (String.eqb_spec selectedGateway "paypal") as [->|N3];
    [split; reflexivity|].
  cbn [orb negb app]. rewrite orb_true_r. split; reflexivity.
Qed.

(** X18: the card form never addresses [/process/auto]. *)
Theorem never_posts_to_auto (p : Generic.props) (st : Card.fields) :
  Generic.gatewayEndpoint (Card.selectedGateway st) <> "auto"
  /\ Generic.url (Generic.build_request p st)
     <> Generic.apiUrl p ++ "/process/" ++ "auto".
Proof.
  assert (A : Generic.gatewayEndpoint (Card.selectedGateway st) <> "auto").
  { unfold Generic.gatewayEndpoint.
    destruct (String.eqb_spec (Card.selectedGateway st) "auto");
      [discriminate|assumption]. }
  split; [exact A|].
  unfold Generic.build_request. cbn [Generic.url]. intros E. apply A.
  revert E. generalize (Generic.gatewayEndpoint (Card.selectedGateway st)).
  intros g. induction (Generic.apiUrl p) as [|c r IH]; simpl.
  - intros E. now injection E.
  - intros E. injection E as E. now apply IH.
Qed.

(** ** The token *)

(** X19: the token of a request has at most sixteen characters and no
    white space. *)
Theorem token_is_short_and_unspaced (p : Generic.props) (st : Card.fields) :
  String.length
    (Generic.token (Generic.b_payment_token
                      (Generic.payload (Generic.build_request p st)))) <= 16
  /\ JS.forallb (fun c => negb (JS.is_space c))
       (Generic.token (Generic.b_payment_token
                         (Generic.payload (Generic.build_request p st))))
     = true.
Proof.
  cbn [Generic.build_request Generic.payload Generic.b_payment_token
       Generic.token].
  unfold JS.substring. cbn [Nat.sub]. split.
  - rewrite length_substring0. lia.
  - apply forallb_substring0. unfold JS.remove_spaces. apply forallb_filter.
Qed.

Lemma blocks_digits (n : nat) (s : string) :
  Shape.blocks n s = true ->
  JS.remove_spaces s = JS.keep_digits s.
Proof.
  revert n. unfold JS.remove_spaces, JS.keep_digits.
  induction s as [|c r IH]; intros n H; [reflexivity|].
  cbn [Shape.blocks] in H. cbn [JS.filter].
  destruct (JS.is_digit c) eqn:D.
  - rewrite (digit_not_space c D). cbn [negb].
    apply andb_true_iff in H. destruct H as [_ H]. now rewrite (IH _ H).
  - destruct (Ascii.eqb_spec c " ") as [->|]; [|discriminate].
    apply andb_true_iff in H. destruct H as [_ H].
    change (JS.is_space " ") with true. cbn [negb]. exact (IH _ H).
Qed.

(** X20: after any sequence of input events that leaves four digits or
    more in the card number, the token is made of four to sixteen digits. *)
Theorem token_after_input_is_digits (p : Generic.props) (gateway : string)
    (es : list Card.input_event) :
  4 <= Shape.count_digits (Card.cardNumber (Card.run gateway es)) ->
  JS.forallb JS.is_digit
    (Generic.token
       (Generic.b_payment_token
          (Generic.payload (Generic.build_request p (Card.run gateway es)))))
  = true
  /\ 4 <= String.length
            (Generic.token
               (Generic.b_payment_token
                  (Generic.payload
                     (Generic.build_request p (Card.run gateway es))))) <= 16.
Proof.
  intros G.
  assert (K : Shape.kept (Card.run gateway es) = true)
    by (apply kept_fold; reflexivity).
  apply kept_parts in K. destruct K as (C & _ & _).
  unfold Shape.card_number_kept in C.
  apply andb_true_iff in C. destruct C as [_ C].
  replace (4 <=? Shape.count_digits (Card.cardNumber (Card.run gateway es)))
    with true in C by (symmetry; now apply Nat.leb_le).
  cbn [Generic.build_request Generic.payload Generic.b_payment_token
       Generic.token].
  unfold JS.substring. cbn [Nat.sub].
  assert (R : JS.remove_spaces (Card.cardNumber (Card.run gateway es))
              = JS.keep_digits (Card.cardNumber (Card.run gateway es))).
  { unfold Shape.grouped in C.
    destruct (Card.cardNumber (Card.run gateway es)) eqn:E; [reflexivity|].
    now apply (blocks_digits 0). }
  rewrite R. split.
  - apply forallb_substring0, forallb_filter.
  - rewrite length_substring0. unfold Shape.count_digits in G. lia.
Qed.

Lemma token_after_input_is_digits_witness :
  JS.forallb JS.is_digit
    (Generic.token
       (Generic.b_payment_token (Generic.payload Demo.request))) = true.
Proof.
  apply (token_after_input_is_digits Demo.props "auto"
           [Card.NameChange "John Doe";
            Card.CardNumberChange "4242424242424242";
            Card.ExpiryDateChange "1234";
            Card.CvvChange "123"]).
  unfold Shape.count_digits. simpl. lia.
Defined.

(** X21: a card number made of white space passes the validation: the
    request is sent, with an empty token. *)
Theorem blank_card_number_is_submitted (p : Generic.props) (st : Card.fields)
    (net : Generic.request -> Generic.axios_outcome) (u : Generic.ui) :
  Generic.all_filled st = true ->
  JS.forallb JS.is_space (Card.cardNumber st) = true ->
  Generic.posts (fst (Generic.handleSubmit p st net u))
  = [Generic.build_request p st]
  /\ Generic.token
       (Generic.b_payment_token (Generic.payload (Generic.build_request p st)))
     = "".
Proof.
  intros F B. split; [now apply posts_handleSubmit|].
  cbn [Generic.build_request Generic.payload Generic.b_payment_token
       Generic.token].
  assert (R : JS.remove_spaces (Card.cardNumber st) = "").
  { unfold JS.remove_spaces.
    induction (Card.cardNumber st) as [|c r IH]; [reflexivity|].
    apply forallb_cons in B as [Bc B]. cbn [JS.filter]. rewrite Bc.
    cbn [negb]. now apply IH. }
  now rewrite R.
Qed.

Lemma blank_card_number_is_submitted_witness :
  Card.cardNumber
    (Card.run "auto"
       [Card.NameChange "John Doe"; Card.CardNumberChange "   ";
        Card.ExpiryDateChange "1234"; Card.CvvChange "123"]) = "   "
  /\ Generic.token
       (Generic.b_payment_token
          (Generic.payload
             (Generic.build_request Demo.props
                (Card.run "auto"
                   [Card.NameChange "John Doe"; Card.CardNumberChange "   ";
                    Card.ExpiryDateChange "1234"; Card.CvvChange "123"]))))
     = "".
Proof.
  split; [reflexivity|].
  apply (blank_card_number_is_submitted Demo.props
           (Card.run "auto"
              [Card.NameChange "John Doe"; Card.CardNumberChange "   ";
               Card.ExpiryDateChange "1234"; Card.CvvChange "123"])
           (Demo.completing 0) Generic.initial_ui); reflexivity.
Defined.

(** ** The Stripe form *)

(** X22: the Stripe form does nothing while Stripe is not loaded, a
    submission is in progress or the card element is missing; otherwise it
    ends in exactly one callback with [isProcessing] down, and it sends its
    request only when the payment method was created. *)
Theorem stripe_submission_shape (ready cardElement : bool) (p : Stripe.props)
    (e : Stripe.env) (st : Stripe.form_state) (pm : Stripe.pm_outcome)
    (net : Stripe.request -> Stripe.fetch_outcome) :
  List.length
    (Stripe.successes
       (fst (Stripe.handleSubmit ready cardElement p e st pm net)))
  + List.length
      (StripeLog.errors
         (fst (Stripe.handleSubmit ready cardElement p e st pm net)))
  = (if StripeLog.proceeds ready cardElement st then 1 else 0)
  /\ Stripe.fetches
       (fst (Stripe.handleSubmit ready cardElement p e st pm net))
     = (if StripeLog.proceeds ready cardElement st
        then match pm with
             | Stripe.Created id => [Stripe.build_request p e st id]
             | _ => []
             end
        else [])
  /\ snd (Stripe.handleSubmit ready cardElement p e st pm net)
     = (if StripeLog.proceeds ready cardElement st then false
        else if ready && negb (Stripe.isProcessing st) then false
        else Stripe.isProcessing st).
Proof.
  unfold Stripe.handleSubmit, StripeLog.proceeds.
  destruct ready, (Stripe.isProcessing st), cardElement; cbn [negb orb andb];
    try (repeat split; reflexivity).
  destruct pm as [id|m|m]; try (repeat split; reflexivity).
  destruct (net (Stripe.build_request p e st id)) as [[|] r|m];
    repeat split; reflexivity.
Qed.

(** ** Modals *)

(** X23: no key and no click closes the loading modal. *)
Theorem loading_modal_cannot_be_dismissed (isOpen : bool) (i : Modal.input) :
  Modal.onClose_calls (Modal.LoadingModal isOpen) i = 0.
Proof. destruct isOpen, i; reflexivity. Qed.

(** ** Sample runs with values that are not strings *)

(** A 422 answer whose [detail] is an array of objects: the state holds
    the array, [onError] its string conversion. *)
Example array_detail :
  Generic.handleSubmit Demo.props Demo.filled
    (fun _ =>
       Generic.Rejected
         (Generic.mkError
            (Some (Generic.mkErrorData
                     (Some (JS.VOther true "[object Object]")) None None))
            (Some "Request failed with status code 422")))
    Generic.initial_ui
  = ([Generic.Post Demo.request; Generic.OnError "[object Object]"],
     Generic.mkUi false (Some (JS.VOther true "[object Object]")) false true
       false None (Some (JS.VOther true "[object Object]", None))).
Proof. reflexivity. Qed.

(** A [detail] that is the empty array is truthy and converts to the
    empty string. *)
Example empty_array_detail :
  fst (Generic.handleSubmit Demo.props Demo.filled
         (fun _ =>
            Generic.Rejected
              (Generic.mkError
                 (Some (Generic.mkErrorData (Some (JS.VOther true "")) None
                          None))
                 (Some "Request failed with status code 422")))
         Generic.initial_ui)
  = [Generic.Post Demo.request; Generic.OnError ""].
Proof. reflexivity. Qed.

(** A [detail] that is [null] or the empty string is passed over. *)
Example falsy_detail :
  fst (Generic.handleSubmit Demo.props Demo.filled
         (fun _ =>
            Generic.Rejected
              (Generic.mkError
                 (Some (Generic.mkErrorData (Some (JS.VOther false "null"))
                          (Some (JS.VString "")) None))
                 (Some "Request failed with status code 500")))
         Generic.initial_ui)
  = [Generic.Post Demo.request;
     Generic.OnError "Request failed with status code 500"].
Proof. reflexivity. Qed.

Example toUpperCase_usd : JS.toUpperCase "usd" = [85; 83; 68]%N.
Proof. reflexivity. Qed.

Example toUpperCase_latin1 :
  JS.toUpperCase
    (String (ascii_of_nat 233)
       (String (ascii_of_nat 223)
          (String (ascii_of_nat 247)
             (String (ascii_of_nat 181) (String (ascii_of_nat 255) "")))))
  = [201; 83; 83; 247; 924; 376]%N.
Proof. reflexivity. Qed.
